(** * aws_sqs_consumer: the consumer control loop

    A shallow embedding of [src/aws_sqs_consumer/consumer.py].

    The class [Consumer] polls an SQS queue, hands what it receives to
    overridable handler methods, deletes what was handled, and routes
    failures to overridable exception callbacks.  Its code is a thin layer
    of control flow around calls that leave the class: the SQS client,
    the handler methods, [time.sleep], [threading.Thread].

    - Python exceptions are values of [Exc]; a computation either returns,
      raises, or does not come back ([Res]).
    - The methods live in a state-and-exception monad [M] over [State]:
      the two mutable attributes of the object ([_running],
      [_sqs_thread]), the thread table, the outside world, the list
      object the batch path shares with its handler, and a log of every
      call the class makes across its boundary ([trace]).
    - Nothing is assumed of the calls that leave the class: the client,
      the handlers, [boto3.client] and [time.sleep] are parameters, and
      each of them may return, raise or not come back.
    - The [while self._running] loop of [start] takes a fuel argument
      counting iterations.
    - A worker thread runs that same loop one turn at a time
      ([worker_step]); turns of different threads interleave. *)

From Stdlib Require Import ZArith QArith Lia String List.
From stdpp Require Import base gmap strings list.

Open Scope string_scope.
Open Scope Z_scope.
Open Scope list_scope.

(** ** Exceptions *)

(** The exception classes the module raises or meets.  [except Exception]
    catches the classes deriving from [Exception]; [KeyboardInterrupt],
    [SystemExit] and other direct subclasses of [BaseException] pass
    through it. *)
Inductive ExcClass : Type :=
| Exception
| ValueError
| AttributeError
| RuntimeError
| IndexError
| OverflowError
| SQSException
| UserException (name : string)
| KeyboardInterrupt
| SystemExit
| UserBaseException (name : string).

(** Modelled from the spec: [SQSException] is declared in [error.py], which
    is not part of the sources read here.  The spec calls it the
    queue-operation error kind and has it reach the same exception callback
    as handler failures, so it derives from [Exception]. *)
Definition derives_Exception (k : ExcClass) : bool :=
  match k with
  | KeyboardInterrupt | SystemExit | UserBaseException _ => false
  | _ => true
  end.

(** An exception object: its class, the message it was built with, its
    [__cause__] (set by [raise ... from ...], which this module never
    writes) and its [__context__], the exception that was being handled
    when this one was raised (PEP 3134). *)
#[local] Unset Elimination Schemes.
Inductive Exc : Type :=
  MkExc {
    exc_class : ExcClass;
    exc_msg : string;
    exc_cause : option Exc;
    exc_context : option Exc
  }.
#[local] Set Elimination Schemes.

Definition is_Exception (e : Exc) : bool := derives_Exception (exc_class e).

(** [X(msg)], raised outside any handler. *)
Definition new_exc (k : ExcClass) (msg : string) : Exc := MkExc k msg None None.

(** Implicit chaining: an exception raised while [handled] is being
    handled gets [handled] as its [__context__]. *)
Definition with_context (e handled : Exc) : Exc :=
  MkExc (exc_class e) (exc_msg e) (exc_cause e) (Some handled).

(** ** Outcomes and the monad *)

(** Why a computation does not come back. *)
Inductive Stuck : Type :=
| OutOfFuel            (* the loop was still running when the fuel ran out *)
| Joining (t : nat)    (* [Thread.join] on a thread that is still alive *)
| NeverReturns.        (* an outside call that does not return *)

Inductive Res (A : Type) : Type :=
| Returns (a : A)
| Raises (e : Exc)
| Hangs (h : Stuck).

Arguments Returns {A} a.
Arguments Raises {A} e.
Arguments Hangs {A} h.

Definition M (St A : Type) : Type := St -> Res A * St.

Definition ret {St A} (a : A) : M St A := fun s => (Returns a, s).

Definition bind {St A B} (m : M St A) (k : A -> M St B) : M St B :=
  fun s =>
    match m s with
    | (Returns a, s') => k a s'
    | (Raises e, s') => (Raises e, s')
    | (Hangs h, s') => (Hangs h, s')
    end.

Definition raise {St A} (e : Exc) : M St A := fun s => (Raises e, s).

Definition gets {St A} (f : St -> A) : M St A := fun s => (Returns (f s), s).

Definition modify {St} (f : St -> St) : M St unit := fun s => (Returns tt, f s).

Declare Scope py_scope.
Delimit Scope py_scope with py.

Notation "x <- c ;; k" := (bind c (fun x => k))
  (at level 100, c at next level, right associativity) : py_scope.
Notation "c ;;; k" := (bind c (fun _ => k))
  (at level 100, right associativity) : py_scope.

(** [try: body / except Exception as e: handler e]. *)
Definition try_except {St A} (body : M St A) (handler : Exc -> M St A) : M St A :=
  fun s =>
    match body s with
    | (Raises e, s') =>
        if is_Exception e then handler e s' else (Raises e, s')
    | other => other
    end.

(** [try: body / finally: fin].  The [finally] block runs when the body
    returns and when it raises; an exception of the block replaces the one
    in flight and takes it as its context. *)
Definition try_finally {St A} (body : M St A) (fin : M St unit) : M St A :=
  fun s =>
    match body s with
    | (Returns a, s') =>
        match fin s' with
        | (Returns _, s'') => (Returns a, s'')
        | (Raises e', s'') => (Raises e', s'')
        | (Hangs h, s'') => (Hangs h, s'')
        end
    | (Raises e, s') =>
        match fin s' with
        | (Returns _, s'') => (Raises e, s'')
        | (Raises e', s'') => (Raises (with_context e' e), s'')
        | (Hangs h, s'') => (Hangs h, s'')
        end
    | (Hangs h, s') => (Hangs h, s')
    end.

(** ** Messages and the queue client's data *)

(** Modelled from the spec: [Message] is declared in [message.py], which is
    not part of the sources read here.  The spec gives it an id, a receipt
    handle, a body and two attribute maps; [consumer.py] reads
    [MessageId] and [ReceiptHandle]. *)
Record Message : Type := {
  MessageId : string;
  ReceiptHandle : string;
  Body : string;
  Attributes : gmap string string;
  MessageAttributes : gmap string string
}.

(** The keyword arguments of [receive_message], as [_sqs_client_params]
    builds them; the key [VisibilityTimeout] is optional. *)
Record ReceiveParams : Type := {
  QueueUrl : string;
  AttributeNames : list string;
  MessageAttributeNames : list string;
  MaxNumberOfMessages : Z;
  WaitTimeSeconds : Z;
  VisibilityTimeout : option Z
}.

(** One entry of [delete_message_batch]'s [Entries]. *)
Record DeleteEntry : Type := { Id : string; EntryReceiptHandle : string }.

(** ** The log of calls that leave the class *)

Inductive Event : Type :=
| EvReceiveMessage (params : ReceiveParams)
| EvHandleMessage (message : Message)
| EvHandleMessageBatch (messages : list Message)
| EvHandleProcessingException (message : Message) (exception : Exc)
| EvHandleBatchProcessingException (messages : list Message) (exception : Exc)
| EvDeleteMessage (queue_url receipt_handle : string)
| EvDeleteMessageBatch (queue_url : string) (entries : list DeleteEntry)
| EvSleep (secs : Q)    (* the statement [time.sleep(ms / 1000)] was reached *)
| EvBoto3Client (region_name : string)
| EvAtexitRegisterStop
| EvThreadStart (t : nat)
| EvThreadJoin (t : nat).

(** Projections of a log onto the calls of one kind, in order. *)
Definition handle_message_calls (evs : list Event) : list Message :=
  omap (fun ev => match ev with EvHandleMessage m => Some m | _ => None end) evs.

Definition handle_message_batch_calls (evs : list Event) : list (list Message) :=
  omap (fun ev => match ev with EvHandleMessageBatch ms => Some ms | _ => None end) evs.

Definition handle_processing_exception_calls (evs : list Event) : list (Message * Exc) :=
  omap (fun ev => match ev with
                  | EvHandleProcessingException m e => Some (m, e)
                  | _ => None end) evs.

Definition handle_batch_processing_exception_calls (evs : list Event)
  : list (list Message * Exc) :=
  omap (fun ev => match ev with
                  | EvHandleBatchProcessingException ms e => Some (ms, e)
                  | _ => None end) evs.

Definition delete_message_calls (evs : list Event) : list (string * string) :=
  omap (fun ev => match ev with EvDeleteMessage q r => Some (q, r) | _ => None end) evs.

Definition delete_message_batch_calls (evs : list Event)
  : list (string * list DeleteEntry) :=
  omap (fun ev => match ev with EvDeleteMessageBatch q es => Some (q, es) | _ => None end) evs.

Definition receive_message_calls (evs : list Event) : list ReceiveParams :=
  omap (fun ev => match ev with EvReceiveMessage p => Some p | _ => None end) evs.

Definition sleep_calls (evs : list Event) : list Q :=
  omap (fun ev => match ev with EvSleep secs => Some secs | _ => None end) evs.

Definition boto3_client_calls (evs : list Event) : list string :=
  omap (fun ev => match ev with EvBoto3Client region => Some region | _ => None end) evs.

(** ** Threads *)

(** The life of a [threading.Thread] whose target is [self.start]. *)
Inductive Phase : Type :=
| Created      (* constructed, [start()] not called yet *)
| Spawned      (* started; the target has not run its first statement *)
| Looping      (* inside [while self._running], at the top of the loop *)
| Exited.      (* the target returned or died with an exception *)

Record Thread : Type := {
  thread_name : string;
  thread_daemon : bool;
  thread_phase : Phase
}.

Definition is_alive (t : Thread) : bool :=
  match thread_phase t with
  | Spawned | Looping => true
  | Created | Exited => false
  end.

(** ** The object, its collaborators and the process around it *)

Section Consumer.

(** [World] is the state of everything outside the class: the queue,
    whatever the handlers keep, the source of [uuid4].  [Client] is the
    type of boto3's SQS client objects, [RawMessage] that of the
    dictionaries a receive response carries. *)
Context {World Client RawMessage : Type}.

(** What a call that leaves the class can touch: the world, and the
    [_running] attribute of [self].  The flag is in reach of the handler
    methods (they hold [self]) and of any other thread calling [stop] or
    [start] while the call is in flight. *)
Record View : Type := { v_world : World; v_running : bool }.

Definition Outside (A : Type) : Type := View -> Res A * View.

(** A call that is handed the list object [messages] of the loop: besides
    its outcome and the view it leaves, the content it leaves that list
    with (the content it was given, unless it changes the list in
    place). *)
Definition OutsideOnList (A : Type) : Type := View -> Res A * View * list Message.

(** The response of [receive_message]: a dictionary in which the key
    ["Messages"] may be missing. *)
Record Response : Type := { Messages : option (list RawMessage) }.

(** The three operations of the SQS client the class calls, and the
    truth value of a client object, which [sqs_client or ...] tests. *)
Class SQSClient : Type := {
  receive_message : Client -> ReceiveParams -> Outside Response;
  delete_message : Client -> string -> string -> Outside unit;
  delete_message_batch : Client -> string -> list DeleteEntry -> Outside unit;
  client_bool : Client -> bool
}.

(** The four methods a subclass overrides.  [handle_message_batch] gets
    the list that [_process_message_batch] reads again after the call. *)
Class Handlers : Type := {
  handle_message : Message -> Outside unit;
  handle_message_batch : list Message -> OutsideOnList unit;
  handle_processing_exception : Message -> Exc -> Outside unit;
  handle_batch_processing_exception : list Message -> Exc -> Outside unit
}.

(** The methods as [Consumer] itself defines them: the two handlers do
    nothing, the two callbacks print the traceback and return. *)
Definition default_handlers : Handlers := {|
  handle_message := fun _ v => (Returns tt, v);
  handle_message_batch := fun messages v => (Returns tt, v, messages);
  handle_processing_exception := fun _ _ v => (Returns tt, v);
  handle_batch_processing_exception := fun _ _ v => (Returns tt, v)
|}.

(** The rest of what the module imports. *)
Class Imports : Type := {
  (* [Message.parse], from [message.py]: a message or an exception *)
  Message_parse : RawMessage -> Exc + Message;
  (* [boto3.client("sqs", region_name=...)] *)
  boto3_client : string -> Outside Client;
  (* [str(uuid4())] *)
  uuid4 : World -> string * World;
  (* the statement [time.sleep(ms / 1000)], its argument written as the
     exact quotient: it returns once the time has passed, or raises
     ([ValueError] on a negative wait; [OverflowError] on a quotient too
     large for a float or for the clock, below zero as well as above;
     [OSError]; whatever a signal handler raises) *)
  time_sleep : Q -> Outside unit
}.

Context `{!SQSClient} `{!Handlers} `{!Imports}.

(** The attributes [__init__] sets once and no method writes again. *)
Record Consumer : Type := {
  queue_url : string;
  attribute_names : list string;
  message_attribute_names : list string;
  batch_size : Z;
  wait_time_seconds : Z;
  visibility_timeout_seconds : option Z;
  polling_wait_time_ms : Z;
  daemon : bool;
  thread_name_prefix : string;
  threaded : bool;
  _sqs_client : Client
}.

(** The attributes the methods write, and the process state they act
    on.  [_sqs_thread] refers to a thread by its index in [threads];
    [messages_obj] is the content of the list object that the batch path
    hands to the handler and reads again afterwards. *)
Record State : Type := {
  world : World;
  _running : bool;
  _sqs_thread : option nat;
  threads : list Thread;
  os_environ : gmap string string;
  messages_obj : list Message;
  trace : list Event
}.

Definition view (s : State) : View :=
  {| v_world := world s; v_running := _running s |}.

Definition with_view (s : State) (v : View) : State :=
  {| world := v_world v; _running := v_running v;
     _sqs_thread := _sqs_thread s; threads := threads s;
     os_environ := os_environ s; messages_obj := messages_obj s;
     trace := trace s |}.

Definition set_running (b : bool) (s : State) : State :=
  {| world := world s; _running := b;
     _sqs_thread := _sqs_thread s; threads := threads s;
     os_environ := os_environ s; messages_obj := messages_obj s;
     trace := trace s |}.

Definition set_sqs_thread (t : option nat) (s : State) : State :=
  {| world := world s; _running := _running s;
     _sqs_thread := t; threads := threads s;
     os_environ := os_environ s; messages_obj := messages_obj s;
     trace := trace s |}.

Definition set_threads (ts : list Thread) (s : State) : State :=
  {| world := world s; _running := _running s;
     _sqs_thread := _sqs_thread s; threads := ts;
     os_environ := os_environ s; messages_obj := messages_obj s;
     trace := trace s |}.

Definition log (ev : Event) (s : State) : State :=
  {| world := world s; _running := _running s;
     _sqs_thread := _sqs_thread s; threads := threads s;
     os_environ := os_environ s; messages_obj := messages_obj s;
     trace := trace s ++ [ev] |}.

Definition set_messages_obj (messages : list Message) (s : State) : State :=
  {| world := world s; _running := _running s;
     _sqs_thread := _sqs_thread s; threads := threads s;
     os_environ := os_environ s; messages_obj := messages;
     trace := trace s |}.

(** A call that leaves the class: logged, then run on the view. *)
Definition call {A} (ev : Event) (op : Outside A) : M State A :=
  fun s =>
    let s1 := log ev s in
    let (r, v) := op (view s1) in (r, with_view s1 v).

(** The same for a call that is handed the list object. *)
Definition call_on_list {A} (ev : Event) (op : OutsideOnList A) : M State A :=
  fun s =>
    let s1 := log ev s in
    let '(r, v, messages) := op (view s1) in
    (r, set_messages_obj messages (with_view s1 v)).

Local Open Scope py_scope.

(** *** Helpers of the class *)

Definition _polling_wait (self : Consumer) : M State unit :=
  call (EvSleep (polling_wait_time_ms self # 1000))
       (time_sleep (polling_wait_time_ms self # 1000)).

Definition _sqs_client_params (self : Consumer) : ReceiveParams :=
  {| QueueUrl := queue_url self;
     AttributeNames := attribute_names self;
     MessageAttributeNames := message_attribute_names self;
     MaxNumberOfMessages := batch_size self;
     WaitTimeSeconds := wait_time_seconds self;
     VisibilityTimeout := visibility_timeout_seconds self |}.

Definition _delete_message (self : Consumer) (message : Message) : M State unit :=
  try_except
    (call (EvDeleteMessage (queue_url self) (ReceiptHandle message))
          (delete_message (_sqs_client self) (queue_url self) (ReceiptHandle message)))
    (fun handled =>
       raise (with_context (new_exc SQSException "Failed to delete message") handled)).

Definition delete_entries (messages : list Message) : list DeleteEntry :=
  map (fun message =>
         {| Id := MessageId message; EntryReceiptHandle := ReceiptHandle message |})
      messages.

Definition _delete_message_batch (self : Consumer) (messages : list Message)
  : M State unit :=
  try_except
    (call (EvDeleteMessageBatch (queue_url self) (delete_entries messages))
          (delete_message_batch (_sqs_client self) (queue_url self)
                                (delete_entries messages)))
    (fun handled =>
       raise (with_context (new_exc SQSException "Failed to delete message batch")
                           handled)).

(** *** Dispatch *)

Definition _process_message (self : Consumer) (message : Message) : M State unit :=
  try_finally
    (try_except
       (call (EvHandleMessage message) (handle_message message) ;;;
        _delete_message self message)
       (fun exception =>
          call (EvHandleProcessingException message exception)
               (handle_processing_exception message exception)))
    (_polling_wait self).

(** The parameter [messages] is a list object, built by [start] and
    handed to the handler: the handler may change it in place, and the
    delete and the callback read it after the handler ran.  The client
    is handed the entries built from it, not the list. *)
Definition _process_message_batch (self : Consumer) (messages : list Message)
  : M State unit :=
  modify (set_messages_obj messages) ;;;
  try_finally
    (try_except
       (call_on_list (EvHandleMessageBatch messages) (handle_message_batch messages) ;;;
        messages <- gets messages_obj ;;
        _delete_message_batch self messages)
       (fun exception =>
          messages <- gets messages_obj ;;
          call (EvHandleBatchProcessingException messages exception)
               (handle_batch_processing_exception messages exception)))
    (_polling_wait self).

(** How the [try] block of [_process_message] comes to raise: the handler
    raises [x], or the handler returns and the delete fails, in which
    case [x] is the [SQSException] that [_delete_message] raises.  The
    block starts in the view [v] and leaves [v']. *)
Definition single_dispatch_fails (self : Consumer) (message : Message)
           (v : View) (x : Exc) (v' : View) : Prop :=
  handle_message message v = (Raises x, v') \/
  exists v0 cause,
    handle_message message v = (Returns tt, v0) /\
    delete_message (_sqs_client self) (queue_url self) (ReceiptHandle message) v0
      = (Raises cause, v') /\
    is_Exception cause = true /\
    x = with_context (new_exc SQSException "Failed to delete message") cause.

(** The same for the [try] block of [_process_message_batch]; [left] is
    the content the handler leaves the list with. *)
Definition batch_dispatch_fails (self : Consumer) (messages : list Message)
           (v : View) (x : Exc) (v' : View) (left : list Message) : Prop :=
  handle_message_batch messages v = (Raises x, v', left) \/
  exists v0 cause,
    handle_message_batch messages v = (Returns tt, v0, left) /\
    delete_message_batch (_sqs_client self) (queue_url self) (delete_entries left) v0
      = (Raises cause, v') /\
    is_Exception cause = true /\
    x = with_context (new_exc SQSException "Failed to delete message batch") cause.

(** *** The loop *)

(** [[Message.parse(d) for d in response["Messages"]]]: left to right,
    the first exception ends the comprehension. *)
Fixpoint parse_messages (raws : list RawMessage) : Exc + list Message :=
  match raws with
  | [] => inr []
  | raw :: rest =>
      match Message_parse raw with
      | inl e => inl e
      | inr message =>
          match parse_messages rest with
          | inl e => inl e
          | inr messages => inr (message :: messages)
          end
      end
  end.

(** The body of [while self._running] in [start]. *)
Definition iteration (self : Consumer) : M State unit :=
  response <- call (EvReceiveMessage (_sqs_client_params self))
                   (receive_message (_sqs_client self) (_sqs_client_params self)) ;;
  match Messages response with
  | None | Some [] => _polling_wait self
  | Some raws =>
      match parse_messages raws with
      | inl e => raise e
      | inr messages =>
          if batch_size self =? 1 then
            match messages with
            | first :: _ => _process_message self first
            | [] => raise (new_exc IndexError "list index out of range")
            end
          else _process_message_batch self messages
      end
  end.

(** [while self._running: ...], at most [fuel] iterations. *)
Fixpoint loop (self : Consumer) (fuel : nat) : M State unit :=
  fun s =>
    if _running s then
      match fuel with
      | O => (Hangs OutOfFuel, s)
      | S fuel' => (iteration self ;;; loop self fuel') s
      end
    else (Returns tt, s).

Definition start (self : Consumer) (fuel : nat) : M State unit :=
  modify (set_running true) ;;;
  loop self fuel.

(** [k] turns of the loop, each passing the test and returning
    normally; [None] when the loop does not get that far. *)
Fixpoint run_iterations (self : Consumer) (k : nat) (s : State) : option State :=
  match k with
  | O => Some s
  | S k' =>
      if _running s then
        match iteration self s with
        | (Returns _, s') => run_iterations self k' s'
        | _ => None
        end
      else None
  end.

(** *** Threads *)

(** The number of threads that have been started and have not ended. *)
Definition alive_workers (s : State) : nat :=
  length (List.filter is_alive (threads s)).

Definition set_phase (t : nat) (p : Phase) (s : State) : State :=
  set_threads
    (alter (fun th => {| thread_name := thread_name th;
                         thread_daemon := thread_daemon th;
                         thread_phase := p |}) t (threads s)) s.

(** [threading.Thread(target=self.start, name=name, daemon=daemon)]. *)
Definition Thread_new (name : string) (daemon : bool) : M State nat :=
  fun s =>
    (Returns (length (threads s)),
     set_threads (threads s ++ [{| thread_name := name;
                                   thread_daemon := daemon;
                                   thread_phase := Created |}]) s).

(** [Thread.start()]. *)
Definition Thread_start (t : nat) : M State unit :=
  fun s =>
    match threads s !! t with
    | Some th =>
        match thread_phase th with
        | Created => (Returns tt, set_phase t Spawned (log (EvThreadStart t) s))
        | _ => (Raises (new_exc RuntimeError "threads can only be started once"), s)
        end
    | None => (Raises (new_exc RuntimeError "no such thread"), s)
    end.

(** [Thread.join()], called from a thread other than [t]: returns at
    once when [t] has ended, and keeps the caller waiting while [t] is
    alive. *)
Definition Thread_join (t : nat) : M State unit :=
  fun s =>
    let s1 := log (EvThreadJoin t) s in
    match threads s !! t with
    | Some th =>
        match thread_phase th with
        | Created =>
            (Raises (new_exc RuntimeError "cannot join thread before it is started"), s1)
        | Exited => (Returns tt, s1)
        | Spawned | Looping => (Hangs (Joining t), s1)
        end
    | None => (Raises (new_exc RuntimeError "no such thread"), s1)
    end.

(** *** Lifecycle *)

Definition stop (self : Consumer) : M State unit :=
  modify (set_running false) ;;;
  if negb (daemon self) then
    th <- gets _sqs_thread ;;
    match th with
    | None =>
        raise (new_exc AttributeError "'NoneType' object has no attribute 'join'")
    | Some t => Thread_join t
    end
  else ret tt.

Definition start_consumer (self : Consumer) (fuel : nat) : M State unit :=
  if negb (threaded self) then start self fuel
  else
    u <- (fun s => let (u, w) := uuid4 (world s) in
                   (Returns u, with_view s {| v_world := w; v_running := _running s |})) ;;
    let thread_name := thread_name_prefix self +:+ u in
    t <- Thread_new thread_name (daemon self) ;;
    modify (set_sqs_thread (Some t)) ;;;
    Thread_start t.

(** One scheduling quantum of the worker thread [t], whose target is
    [self.start]: its first quantum runs [self._running = True], every
    later one the loop test and, when it passes, one iteration.  An
    exception leaving the iteration ends the thread. *)
Definition worker_step (self : Consumer) (t : nat) (s : State) : State :=
  match threads s !! t with
  | Some th =>
      match thread_phase th with
      | Spawned => set_phase t Looping (set_running true s)
      | Looping =>
          if _running s then
            match iteration self s with
            | (Returns _, s') => s'
            | (Raises _, s') => set_phase t Exited s'
            | (Hangs _, s') => s'
            end
          else set_phase t Exited s
      | Created | Exited => s
      end
  | None => s
  end.

(** *** Construction *)

Record InitArgs : Type := {
  arg_queue_url : string;
  arg_region : option string;
  arg_sqs_client : option Client;
  arg_attribute_names : list string;
  arg_message_attribute_names : list string;
  arg_batch_size : Z;
  arg_wait_time_seconds : Z;
  arg_visibility_timeout_seconds : option Z;
  arg_polling_wait_time_ms : Z;
  arg_daemon : bool;
  arg_thread_name : string;
  arg_threaded : bool
}.

(** [sqs_client or boto3.client("sqs", region_name=region)]: the
    argument when it is true ([None] is not, and an object is or is not
    by its [__bool__]), the new client otherwise. *)
Definition client_or_boto3 (sqs_client : option Client) (region : string)
  : M State Client :=
  match sqs_client with
  | Some client =>
      if client_bool client then ret client
      else call (EvBoto3Client region) (boto3_client region)
  | None => call (EvBoto3Client region) (boto3_client region)
  end.

Definition batch_size_ok (batch_size : Z) : bool :=
  (1 <=? batch_size) && (batch_size <=? 10).

Definition batch_size_error : Exc :=
  new_exc ValueError "Batch size should be between 1 and 10, both inclusive".

Definition region_error : Exc :=
  new_exc Exception
    "Please specify the region parameter or set                             AWS_DEFAULT_REGION env variable.".

Definition __init__ (a : InitArgs) : M State Consumer :=
  if negb (batch_size_ok (arg_batch_size a)) then raise batch_size_error
  else
    modify (set_sqs_thread None) ;;;
    client <- match arg_region a with
              | Some (String c r) =>
                  client_or_boto3 (arg_sqs_client a) (String c r)
              | Some EmptyString | None =>
                  environ <- gets os_environ ;;
                  match environ !! "AWS_DEFAULT_REGION" with
                  | Some region => client_or_boto3 (arg_sqs_client a) region
                  | None => raise region_error
                  end
              end ;;
    modify (set_running false) ;;;
    modify (log EvAtexitRegisterStop) ;;;
    ret {| queue_url := arg_queue_url a;
           attribute_names := arg_attribute_names a;
           message_attribute_names := arg_message_attribute_names a;
           batch_size := arg_batch_size a;
           wait_time_seconds := arg_wait_time_seconds a;
           visibility_timeout_seconds := arg_visibility_timeout_seconds a;
           polling_wait_time_ms := arg_polling_wait_time_ms a;
           daemon := arg_daemon a;
           thread_name_prefix := "aws_sqs_thread" +:+ arg_thread_name a;
           threaded := arg_threaded a;
           _sqs_client := client |}.

End Consumer.

(** ** A scripted queue and a subclass, to run the class on *)

Module Demo.

(** The outside world of the runs below: what the next calls of
    [receive_message] will answer, and a counter feeding [uuid4]. *)
Record World : Type := {
  inbox : list (Exc + list Message);
  uuid_seed : nat
}.

Definition pop_inbox (v : @View World) : Res (@Response Message) * @View World :=
  match inbox (v_world v) with
  | [] => (Returns {| Messages := None |}, v)
  | answer :: rest =>
      let v' := {| v_world := {| inbox := rest; uuid_seed := uuid_seed (v_world v) |};
                   v_running := v_running v |} in
      match answer with
      | inl e => (Raises e, v')
      | inr raws => (Returns {| Messages := Some raws |}, v')
      end
  end.

Definition client_error : Exc :=
  new_exc (UserException "ClientError") "ReceiptHandleIsInvalid".

Definition endpoint_error : Exc :=
  new_exc (UserException "EndpointConnectionError") "could not connect".

Definition handler_error : Exc :=
  new_exc (UserException "BadPayload") "cannot handle this body".

Definition callback_error : Exc :=
  new_exc (UserException "DeadLetterFailed") "cannot park this message".

(** A client whose deletes fail on the receipt handle ["expired"]. *)
#[export] Instance client : @SQSClient World unit Message := {|
  receive_message := fun _ _ => pop_inbox;
  delete_message := fun _ _ receipt_handle v =>
    if String.eqb receipt_handle "expired"
    then (Raises client_error, v) else (Returns tt, v);
  delete_message_batch := fun _ _ entries v =>
    if existsb (fun entry => String.eqb (EntryReceiptHandle entry) "expired") entries
    then (Raises client_error, v) else (Returns tt, v);
  client_bool := fun _ => true
|}.

(** A subclass whose handlers fail on the body ["boom"] and whose
    callbacks fail on the message id ["poison"]; what a callback raises
    is raised while the exception it was given is being handled.  The
    batch handler leaves the list as it got it. *)
#[export] Instance handlers : @Handlers World := {|
  handle_message := fun message v =>
    if String.eqb (Body message) "boom"
    then (Raises handler_error, v) else (Returns tt, v);
  handle_message_batch := fun messages v =>
    if existsb (fun message => String.eqb (Body message) "boom") messages
    then (Raises handler_error, v, messages) else (Returns tt, v, messages);
  handle_processing_exception := fun message exception v =>
    if String.eqb (MessageId message) "poison"
    then (Raises (with_context callback_error exception), v) else (Returns tt, v);
  handle_batch_processing_exception := fun messages exception v =>
    if existsb (fun message => String.eqb (MessageId message) "poison") messages
    then (Raises (with_context callback_error exception), v) else (Returns tt, v)
|}.

(** A subclass whose batch handler takes the last message off the list it
    was given ([messages.pop()]) and returns. *)
Definition trimming_handlers : @Handlers World := {|
  handle_message := fun _ v => (Returns tt, v);
  handle_message_batch := fun messages v => (Returns tt, v, removelast messages);
  handle_processing_exception := fun _ _ v => (Returns tt, v);
  handle_batch_processing_exception := fun _ _ v => (Returns tt, v)
|}.

(** [time.sleep] for the runs below, which wait between -5 ms and
    250 ms: a wait whose nanoseconds do not fit the clock raises
    [OverflowError], one below zero [ValueError], and the others
    return. *)
Definition sleep (secs : Q) (v : @View World) : Res unit * @View World :=
  if (2 ^ 63 - 1) * Zpos (Qden secs) <? Z.abs (Qnum secs) * 10 ^ 9
  then (Raises (new_exc OverflowError "timestamp too large to convert to C _PyTime_t"), v)
  else if Qnum secs <? 0
       then (Raises (new_exc ValueError "sleep length must be non-negative"), v)
       else (Returns tt, v).

#[export] Instance imports : @Imports World unit Message := {|
  Message_parse := inr;
  boto3_client := fun _ v => (Returns tt, v);
  uuid4 := fun w =>
    (String.concat "" (replicate (S (uuid_seed w)) "u"),
     {| inbox := inbox w; uuid_seed := S (uuid_seed w) |});
  time_sleep := sleep
|}.

Definition msg (id receipt_handle body : string) : Message :=
  {| MessageId := id; ReceiptHandle := receipt_handle; Body := body;
     Attributes := ∅; MessageAttributes := ∅ |}.

Definition args (batch_size : Z) (daemon threaded : bool) : @InitArgs unit :=
  {| arg_queue_url := "https://sqs.eu-west-1.amazonaws.com/1/jobs";
     arg_region := Some "eu-west-1";
     arg_sqs_client := Some tt;
     arg_attribute_names := [];
     arg_message_attribute_names := [];
     arg_batch_size := batch_size;
     arg_wait_time_seconds := 1;
     arg_visibility_timeout_seconds := None;
     arg_polling_wait_time_ms := 0;
     arg_daemon := daemon;
     arg_thread_name := "consumer";
     arg_threaded := threaded |}.

(** The object [__init__] builds from [args]. *)
Definition consumer (batch_size : Z) (daemon threaded : bool) : @Consumer unit :=
  {| queue_url := "https://sqs.eu-west-1.amazonaws.com/1/jobs";
     attribute_names := [];
     message_attribute_names := [];
     batch_size := batch_size;
     wait_time_seconds := 1;
     visibility_timeout_seconds := None;
     polling_wait_time_ms := 0;
     daemon := daemon;
     thread_name_prefix := "aws_sqs_threadconsumer";
     threaded := threaded;
     _sqs_client := tt |}.

(** A process in which nothing has happened yet. *)
Definition fresh (answers : list (Exc + list Message)) : @State World :=
  {| world := {| inbox := answers; uuid_seed := 0 |};
     _running := false;
     _sqs_thread := None;
     threads := [];
     os_environ := ∅;
     messages_obj := [];
     trace := [] |}.

(** The same process once [start] has set the flag. *)
Definition running (answers : list (Exc + list Message)) : @State World :=
  set_running true (fresh answers).

(** What the outside calls see while that process runs. *)
Definition seen (answers : list (Exc + list Message)) : @View World :=
  {| v_world := {| inbox := answers; uuid_seed := 0 |}; v_running := true |}.

(** The process after [__init__] has built a consumer that is not a
    daemon, and before anything else is called on it. *)
Definition constructed : @State World :=
  (__init__ (args 1 false true) (fresh [])).2.

(** The process after one and after two calls of [start_consumer] on a
    threaded consumer, with no worker scheduled in between. *)
Definition started_once (answers : list (Exc + list Message)) : @State World :=
  (start_consumer (consumer 1 true true) 0 (fresh answers)).2.

Definition started_twice (answers : list (Exc + list Message)) : @State World :=
  (start_consumer (consumer 1 true true) 0 (started_once answers)).2.

(** A subclass whose [handle_message] clears [self._running] on the body
    ["stop"], as a call of [self.stop()] on a daemon consumer does. *)
Definition stopping_handlers : @Handlers World := {|
  handle_message := fun message v =>
    if String.eqb (Body message) "stop"
    then (Returns tt, {| v_world := v_world v; v_running := false |})
    else (Returns tt, v);
  handle_message_batch := fun messages v => (Returns tt, v, messages);
  handle_processing_exception := fun _ _ v => (Returns tt, v);
  handle_batch_processing_exception := fun _ _ v => (Returns tt, v)
|}.

Definition interrupt : Exc := new_exc KeyboardInterrupt "".

(** A subclass whose handlers are interrupted on the body ["ctrl-c"]. *)
Definition interrupted_handlers : @Handlers World := {|
  handle_message := fun message v =>
    if String.eqb (Body message) "ctrl-c"
    then (Raises interrupt, v) else (Returns tt, v);
  handle_message_batch := fun messages v =>
    if existsb (fun message => String.eqb (Body message) "ctrl-c") messages
    then (Raises interrupt, v, messages) else (Returns tt, v, messages);
  handle_processing_exception := fun _ _ v => (Returns tt, v);
  handle_batch_processing_exception := fun _ _ v => (Returns tt, v)
|}.

(** A client whose deletes are interrupted on the receipt handle
    ["ctrl-c"]. *)
Definition interrupted_client : @SQSClient World unit Message := {|
  receive_message := fun _ _ => pop_inbox;
  delete_message := fun _ _ receipt_handle v =>
    if String.eqb receipt_handle "ctrl-c"
    then (Raises interrupt, v) else (Returns tt, v);
  delete_message_batch := fun _ _ entries v =>
    if existsb (fun entry => String.eqb (EntryReceiptHandle entry) "ctrl-c") entries
    then (Raises interrupt, v) else (Returns tt, v);
  client_bool := fun _ => true
|}.

Definition key_error : Exc := new_exc (UserException "KeyError") "'MessageId'".

(** A [Message.parse] that fails on a record without a message id. *)
Definition strict_imports : @Imports World unit Message := {|
  Message_parse := fun raw =>
    if String.eqb (MessageId raw) "" then inl key_error else inr raw;
  boto3_client := fun _ v => (Returns tt, v);
  uuid4 := fun w => ("u", w);
  time_sleep := sleep
|}.

(** [consumer] with another inter-poll wait. *)
Definition waiting (ms : Z) (batch_size : Z) : @Consumer unit :=
  {| queue_url := "https://sqs.eu-west-1.amazonaws.com/1/jobs";
     attribute_names := [];
     message_attribute_names := [];
     batch_size := batch_size;
     wait_time_seconds := 1;
     visibility_timeout_seconds := None;
     polling_wait_time_ms := ms;
     daemon := true;
     thread_name_prefix := "aws_sqs_threadconsumer";
     threaded := true;
     _sqs_client := tt |}.

(** [args] with the region and the client left out or given. *)
Definition args_with (region : option string) (sqs_client : option unit)
  : @InitArgs unit :=
  {| arg_queue_url := "https://sqs.eu-west-1.amazonaws.com/1/jobs";
     arg_region := region;
     arg_sqs_client := sqs_client;
     arg_attribute_names := ["All"];
     arg_message_attribute_names := [];
     arg_batch_size := 10;
     arg_wait_time_seconds := 20;
     arg_visibility_timeout_seconds := Some 30;
     arg_polling_wait_time_ms := 250;
     arg_daemon := true;
     arg_thread_name := "jobs";
     arg_threaded := true |}.

(** Client objects with a truth value of their own: [true] stands for a
    client that counts as true, as a boto3 client does, [false] for one
    that does not (an object whose [__bool__] or [__len__] says so). *)
Definition weighed_client : @SQSClient World bool Message := {|
  receive_message := fun _ _ => pop_inbox;
  delete_message := fun _ _ _ v => (Returns tt, v);
  delete_message_batch := fun _ _ _ v => (Returns tt, v);
  client_bool := fun client => client
|}.

(** Imports whose [boto3.client] returns a client that counts as true. *)
Definition weighed_imports : @Imports World bool Message := {|
  Message_parse := inr;
  boto3_client := fun _ v => (Returns true, v);
  uuid4 := fun w => ("u", w);
  time_sleep := sleep
|}.

(** Arguments passing [sqs_client] along with a region. *)
Definition args_passing (sqs_client : bool) : @InitArgs bool :=
  {| arg_queue_url := "https://sqs.eu-west-1.amazonaws.com/1/jobs";
     arg_region := Some "eu-west-1";
     arg_sqs_client := Some sqs_client;
     arg_attribute_names := ["All"];
     arg_message_attribute_names := [];
     arg_batch_size := 10;
     arg_wait_time_seconds := 20;
     arg_visibility_timeout_seconds := Some 30;
     arg_polling_wait_time_ms := 250;
     arg_daemon := true;
     arg_thread_name := "jobs";
     arg_threaded := true |}.

(** [fresh] with [AWS_DEFAULT_REGION] set in the environment. *)
Definition fresh_in (region : string) : @State World :=
  {| world := {| inbox := []; uuid_seed := 0 |};
     _running := false;
     _sqs_thread := None;
     threads := [];
     os_environ := {[ "AWS_DEFAULT_REGION" := region ]};
     messages_obj := [];
     trace := [] |}.

(** The consumer [__init__] builds from [args_with]. *)
Definition configured : @Consumer unit :=
  {| queue_url := "https://sqs.eu-west-1.amazonaws.com/1/jobs";
     attribute_names := ["All"];
     message_attribute_names := [];
     batch_size := 10;
     wait_time_seconds := 20;
     visibility_timeout_seconds := Some 30;
     polling_wait_time_ms := 250;
     daemon := true;
     thread_name_prefix := "aws_sqs_threadjobs";
     threaded := true;
     _sqs_client := tt |}.

(** A consumer that is not a daemon, with its worker inside the loop. *)
Definition worker_looping : @State World :=
  worker_step (consumer 1 false true) 0
              (start_consumer (consumer 1 false true) 0 (fresh [])).2.

(** A worker inside the loop, in front of a queue it cannot reach. *)
Definition worker_offline : @State World :=
  worker_step (consumer 1 true true) 0 (started_once [inl endpoint_error]).

Definition m_stop : Message := msg "m-6" "rh-6" "stop".
Definition m_ctrl_c : Message := msg "m-7" "rh-7" "ctrl-c".
Definition m_ctrl_c_delete : Message := msg "m-8" "ctrl-c" "hello".
Definition m_no_id : Message := msg "" "rh-9" "hello".

Definition m_ok : Message := msg "m-1" "rh-1" "hello".
Definition m_late : Message := msg "m-2" "rh-2" "hello".
Definition m_boom : Message := msg "m-3" "rh-3" "boom".
Definition m_expired : Message := msg "m-4" "expired" "hello".
Definition m_poison : Message := msg "poison" "rh-5" "boom".

End Demo.

(** * Properties *)

Section Properties.

Context {World Client RawMessage : Type}.
Context `{!@SQSClient World Client RawMessage}
        `{!@Handlers World}
        `{!@Imports World Client RawMessage}.

Implicit Types (self : @Consumer Client) (s : @State World) (v : @View World).
Implicit Types (message : Message) (messages : list Message) (e : Exc).

(** ** Running the building blocks *)

Lemma view_log ev s : view (log ev s) = view s.
Proof. reflexivity. Qed.

Lemma view_with_view s v : view (with_view s v) = v.
Proof. destruct v; reflexivity. Qed.

Lemma call_run {A} (ev : Event) (op : Outside A) s r v :
  op (view s) = (r, v) ->
  call ev op s = (r, with_view (log ev s) v).
Proof. intros Hop. unfold call. rewrite view_log, Hop. reflexivity. Qed.

Lemma view_set_messages_obj messages s : view (set_messages_obj messages s) = view s.
Proof. reflexivity. Qed.

Lemma call_on_list_run {A} (ev : Event) (op : OutsideOnList A) s r v messages :
  op (view s) = (r, v, messages) ->
  call_on_list ev op s = (r, set_messages_obj messages (with_view (log ev s) v)).
Proof. intros Hop. unfold call_on_list. rewrite view_log, Hop. reflexivity. Qed.

(** The inter-poll wait is one outside call: it answers what
    [time.sleep] answers. *)
Lemma _polling_wait_run self s r v :
  time_sleep (polling_wait_time_ms self # 1000) (view s) = (r, v) ->
  _polling_wait self s =
    (r, with_view (log (EvSleep (polling_wait_time_ms self # 1000)) s) v).
Proof. apply call_run. Qed.

Lemma _delete_message_run self message s r v :
  delete_message (_sqs_client self) (queue_url self) (ReceiptHandle message) (view s)
    = (r, v) ->
  _delete_message self message s =
    (match r with
     | Raises cause =>
         if is_Exception cause
         then Raises (with_context (new_exc SQSException "Failed to delete message") cause)
         else Raises cause
     | other => other
     end,
     with_view (log (EvDeleteMessage (queue_url self) (ReceiptHandle message)) s) v).
Proof.
  intros Hdel. unfold _delete_message, try_except.
  rewrite (call_run _ _ _ _ _ Hdel).
  destruct r as [[]|cause|h]; try reflexivity.
  destruct (is_Exception cause); reflexivity.
Qed.

Lemma _delete_message_batch_run self messages s r v :
  delete_message_batch (_sqs_client self) (queue_url self) (delete_entries messages)
                       (view s) = (r, v) ->
  _delete_message_batch self messages s =
    (match r with
     | Raises cause =>
         if is_Exception cause
         then Raises (with_context
                        (new_exc SQSException "Failed to delete message batch") cause)
         else Raises cause
     | other => other
     end,
     with_view (log (EvDeleteMessageBatch (queue_url self) (delete_entries messages)) s) v).
Proof.
  intros Hdel. unfold _delete_message_batch, try_except.
  rewrite (call_run _ _ _ _ _ Hdel).
  destruct r as [[]|cause|h]; try reflexivity.
  destruct (is_Exception cause); reflexivity.
Qed.

(** *** Proof steps shared by the dispatch lemmas *)

#[local] Arguments call : simpl never.
#[local] Arguments call_on_list : simpl never.
#[local] Arguments delete_entries : simpl never.
#[local] Arguments is_Exception : simpl never.

(** Runs the next outside call of the goal: names its outcome, splits
    on it, and moves on to the state it leaves. *)
Ltac step_call :=
  match goal with
  | |- context [call ?ev ?op ?s] =>
      let r := fresh "r" in
      let v' := fresh "v" in
      let E := fresh "E" in
      destruct (op (view s)) as [r v'] eqn:E;
      rewrite (call_run ev op s r v' E);
      rewrite ?view_set_messages_obj, ?view_with_view, ?view_log in E;
      destruct r as [[]| |]; cbn
  | |- context [call_on_list ?ev ?op ?s] =>
      let r := fresh "r" in
      let v' := fresh "v" in
      let left := fresh "left" in
      let E := fresh "E" in
      destruct (op (view s)) as [[r v'] left] eqn:E;
      rewrite (call_on_list_run ev op s r v' left E);
      rewrite ?view_set_messages_obj, ?view_with_view, ?view_log in E;
      destruct r as [[]| |]; cbn
  end.

Lemma SQSException_is_Exception msg cause :
  is_Exception (with_context (new_exc SQSException msg) cause) = true.
Proof. reflexivity. Qed.

Ltac step_except :=
  match goal with
  | |- context [is_Exception (with_context (new_exc SQSException _) _)] =>
      rewrite SQSException_is_Exception; cbn
  | |- context [if is_Exception ?e then _ else _] =>
      destruct (is_Exception e) eqn:?; cbn
  end.

Ltac steps := repeat first [step_call | step_except].

(** Two hypotheses on the outcome of one call speak of one outcome. *)
Ltac same_call :=
  simplify_eq;
  repeat match goal with
    | H1 : ?t = _, H2 : ?t = _ |- _ => rewrite H1 in H2; simplify_eq
    end.

Ltac show_trace :=
  eexists; split; [cbn; rewrite <- ?app_assoc; cbn; reflexivity |].

Ltac open_dispatch :=
  unfold _process_message, _process_message_batch,
         _delete_message, _delete_message_batch, _polling_wait,
         try_finally, try_except, bind, modify, gets; cbn.

(** ** Single-message dispatch *)


(** The loop goes round: an iteration that returns hands its state to
    the next loop test. *)
Lemma loop_next self s fuel :
  _running s = true ->
  (iteration self s).1 = Returns tt ->
  loop self (S fuel) s = loop self fuel (iteration self s).2.
Proof.
  intros Hrun Hret. cbn [loop]. rewrite Hrun. unfold bind.
  destruct (iteration self s) as [r s']. cbn in Hret. subst r. reflexivity.
Qed.

(** An exception leaving an iteration leaves the loop. *)
Lemma loop_raises self s fuel e :
  _running s = true ->
  (iteration self s).1 = Raises e ->
  loop self (S fuel) s = (Raises e, (iteration self s).2).
Proof.
  intros Hrun Hret. cbn [loop]. rewrite Hrun. unfold bind.
  destruct (iteration self s) as [r s']. cbn in Hret. subst r. reflexivity.
Qed.

Ltac open_iteration Hrecv Hmsgs Hparse :=
  unfold iteration, bind;
  rewrite (call_run _ _ _ _ _ Hrecv), Hmsgs;
  match goal with
  | raws : list RawMessage |- _ =>
      destruct raws; [discriminate Hparse || (cbn in Hparse; congruence) |]
  end;
  rewrite Hparse.

(** C2, as the code has it.  Batch size 1, and [handle_message] raises
    [e] on the message it was given: [delete_message] is not called in
    that turn.  When [e] is an [Exception],
    [handle_processing_exception] is called exactly once, with that
    message and [e]; and provided the callback returns and the
    [time.sleep] of the [finally] block returns, the turn returns
    normally and the loop goes on from the state it leaves.  When the
    callback returns and that [time.sleep] raises, its exception leaves
    the turn and the loop. *)
Theorem handle_message_raises self s response v raws message rest e v1 :
  batch_size self = 1 ->
  receive_message (_sqs_client self) (_sqs_client_params self) (view s)
    = (Returns response, v) ->
  Messages response = Some raws ->
  parse_messages raws = inr (message :: rest) ->
  handle_message message v = (Raises e, v1) ->
  exists evs,
    trace (iteration self s).2 = trace s ++ evs /\
    handle_message_calls evs = [message] /\
    delete_message_calls evs = [] /\
    (is_Exception e = true ->
       handle_processing_exception_calls evs = [(message, e)] /\
       (forall v2 v3,
          handle_processing_exception message e v1 = (Returns tt, v2) ->
          time_sleep (polling_wait_time_ms self # 1000) v2 = (Returns tt, v3) ->
          (iteration self s).1 = Returns tt /\
          (_running s = true ->
           forall fuel, loop self (S fuel) s = loop self fuel (iteration self s).2)) /\
       (forall v2 raised v3,
          handle_processing_exception message e v1 = (Returns tt, v2) ->
          time_sleep (polling_wait_time_ms self # 1000) v2 = (Raises raised, v3) ->
          (iteration self s).1 = Raises raised /\
          (_running s = true ->
           forall fuel, loop self (S fuel) s = (Raises raised, (iteration self s).2)))).
Proof.
  intros Hsize Hrecv Hmsgs Hparse Hraise.
  assert (Hnext : (iteration self s).1 = Returns tt ->
                  _running s = true ->
                  forall fuel, loop self (S fuel) s = loop self fuel (iteration self s).2)
    by (intros; by apply loop_next).
  assert (Hends : forall raised,
            (iteration self s).1 = Raises raised ->
            _running s = true ->
            forall fuel, loop self (S fuel) s = (Raises raised, (iteration self s).2))
    by (intros; by apply loop_raises).
  revert Hnext Hends.
  open_iteration Hrecv Hmsgs Hparse. rewrite Hsize. cbn.
  open_dispatch. step_call; same_call.
  steps; intros Hnext Hends; show_trace.
  all: repeat split; try reflexivity; try congruence.
  all: intros; same_call; try done.
  all: first [by apply Hnext | by apply Hends].
Qed.


(** ** Batch dispatch *)

(** The entries of a batch delete: one per message, in order, each with
    the id and the receipt handle of its message. *)
Lemma delete_entries_pairs messages :
  Forall2 (fun message entry =>
             Id entry = MessageId message /\
             EntryReceiptHandle entry = ReceiptHandle message)
          messages (delete_entries messages).
Proof. induction messages as [|message messages IH]; cbn; by constructor. Qed.

(** C3, as the code has it.  Batch size above 1, and a receive that
    returns at least one message: [handle_message_batch] is called
    exactly once, with the whole list.  The handler is given the list
    object itself, and what follows reads the list as the handler left
    it ([left]): when the handler returns, [delete_message_batch] is
    called exactly once, with one [(Id, ReceiptHandle)] entry for each
    message of [left], in order; when it raises, nothing is deleted.  A
    failure of the handler or of the batch delete reaches
    [handle_batch_processing_exception] exactly once, with [left] and the
    exception; with no failure the callback is not called. *)
Theorem handle_message_batch_once self s response v raws messages :
  1 < batch_size self ->
  receive_message (_sqs_client self) (_sqs_client_params self) (view s)
    = (Returns response, v) ->
  Messages response = Some raws ->
  parse_messages raws = inr messages ->
  (0 < length messages)%nat ->
  exists evs,
    trace (iteration self s).2 = trace s ++ evs /\
    handle_message_batch_calls evs = [messages] /\
    handle_message_calls evs = [] /\
    (forall v1 left,
       handle_message_batch messages v = (Returns tt, v1, left) ->
       exists entries,
         delete_message_batch_calls evs = [(queue_url self, entries)] /\
         Forall2 (fun message entry =>
                    Id entry = MessageId message /\
                    EntryReceiptHandle entry = ReceiptHandle message)
                 left entries /\
         (forall v2,
            delete_message_batch (_sqs_client self) (queue_url self) entries v1
              = (Returns tt, v2) ->
            handle_batch_processing_exception_calls evs = []) /\
         (forall cause v2,
            delete_message_batch (_sqs_client self) (queue_url self) entries v1
              = (Raises cause, v2) ->
            is_Exception cause = true ->
            handle_batch_processing_exception_calls evs =
              [(left,
                with_context (new_exc SQSException "Failed to delete message batch")
                             cause)])) /\
    (forall e v1 left,
       handle_message_batch messages v = (Raises e, v1, left) ->
       delete_message_batch_calls evs = [] /\
       (is_Exception e = true ->
        handle_batch_processing_exception_calls evs = [(left, e)])).
Proof.
  intros Hsize Hrecv Hmsgs Hparse Hlen.
  unfold iteration, bind.
  rewrite (call_run _ _ _ _ _ Hrecv), Hmsgs.
  destruct raws as [|raw raws'];
    [cbn in Hparse; assert (messages = []) by congruence; subst; cbn in Hlen; lia |].
  rewrite Hparse.
  destruct (Z.eqb_spec (batch_size self) 1) as [Heq|_]; [lia |].
  open_dispatch. steps; show_trace.
  all: split; [reflexivity |]; split; [reflexivity |].
  all: split; [intros ?v ?left ?Hh; same_call | intros ?e ?v ?left ?Hh; same_call].
  all: try (split; [reflexivity | intros; same_call; congruence || reflexivity]).
  all: eexists; split; [reflexivity |]; split; [apply delete_entries_pairs |].
  all: split; intros; same_call; congruence || reflexivity.
Qed.

(** ** Failed deletes *)

(** C5.  When the handler returns and the delete call raises an
    [Exception], the delete is attempted once, and the callback of the
    same dispatch path is called once with an [SQSException] whose
    [__context__] is the exception the client raised.  This holds for
    [delete_message] with [handle_processing_exception] and for
    [delete_message_batch] with [handle_batch_processing_exception], the
    batch being the list as the handler left it. *)
Theorem delete_failure_wrapped self s cause :
  is_Exception cause = true ->
  (forall message v1 v2,
     handle_message message (view s) = (Returns tt, v1) ->
     delete_message (_sqs_client self) (queue_url self) (ReceiptHandle message) v1
       = (Raises cause, v2) ->
     exists evs wrapped,
       trace (_process_message self message s).2 = trace s ++ evs /\
       delete_message_calls evs = [(queue_url self, ReceiptHandle message)] /\
       handle_processing_exception_calls evs = [(message, wrapped)] /\
       exc_class wrapped = SQSException /\
       exc_msg wrapped = "Failed to delete message" /\
       exc_cause wrapped = None /\
       exc_context wrapped = Some cause) /\
  (forall messages v1 left v2,
     handle_message_batch messages (view s) = (Returns tt, v1, left) ->
     delete_message_batch (_sqs_client self) (queue_url self) (delete_entries left) v1
       = (Raises cause, v2) ->
     exists evs wrapped,
       trace (_process_message_batch self messages s).2 = trace s ++ evs /\
       delete_message_batch_calls evs = [(queue_url self, delete_entries left)] /\
       handle_batch_processing_exception_calls evs = [(left, wrapped)] /\
       exc_class wrapped = SQSException /\
       exc_msg wrapped = "Failed to delete message batch" /\
       exc_cause wrapped = None /\
       exc_context wrapped = Some cause).
Proof.
  intros Hexc. split.
  - intros message v1 v2 Hhandle Hdelete.
    open_dispatch. steps; same_call.
    all: eexists; eexists; split; [cbn; rewrite <- ?app_assoc; cbn; reflexivity |].
    all: repeat split; reflexivity.
  - intros messages v1 left v2 Hhandle Hdelete.
    open_dispatch. steps; same_call.
    all: eexists; eexists; split; [cbn; rewrite <- ?app_assoc; cbn; reflexivity |].
    all: repeat split; reflexivity.
Qed.

(** ** The class's own handlers *)

(** X21.  With the four methods as [Consumer] defines them, a single
    dispatch never ends in an exception of the handler or of a failed
    delete: the default callback takes it and returns, and the dispatch
    returns whenever the [time.sleep] of its [finally] block does. *)
Lemma default_handlers_isolate_failures self message s r v :
  (forall v0, (time_sleep (polling_wait_time_ms self # 1000) v0).1 = Returns tt) ->
  delete_message (_sqs_client self) (queue_url self) (ReceiptHandle message) (view s)
    = (r, v) ->
  match r with
  | Returns _ => True
  | Raises cause => is_Exception cause = true
  | Hangs _ => False
  end ->
  (_process_message (H0 := default_handlers) self message s).1 = Returns tt.
Proof.
  intros Hsleep Hdelete Hr. open_dispatch.
  unfold call at 1.
  erewrite call_run by (rewrite view_with_view, view_log; exact Hdelete).
  destruct r as [[]|cause|h]; [| |done]; cbn.
  - step_call; try done.
    all: match goal with E : time_sleep _ ?v0 = _ |- _ =>
           pose proof (Hsleep v0) as Hs; rewrite E in Hs; discriminate Hs end.
  - rewrite Hr. unfold raise. cbn. rewrite SQSException_is_Exception.
    unfold call at 1. cbn.
    step_call; try done.
    all: match goal with E : time_sleep _ ?v0 = _ |- _ =>
           pose proof (Hsleep v0) as Hs; rewrite E in Hs; discriminate Hs end.
Qed.

(** ** Exceptions that leave the loop *)

Lemma loop_after_iterations self k :
  forall s s' fuel,
    run_iterations self k s = Some s' ->
    loop self (k + fuel) s = loop self fuel s'.
Proof.
  induction k as [|k IH]; intros s s' fuel Hrun; cbn in Hrun.
  - by simplify_eq.
  - destruct (_running s) eqn:Hflag; [|discriminate].
    destruct (iteration self s) as [[[]|e|h] s1] eqn:Hiter; try discriminate.
    cbn [Nat.add loop]. rewrite Hflag. unfold bind. rewrite Hiter.
    by apply IH.
Qed.

(** A turn that does not return ends the loop with what it answered. *)
Lemma loop_ends self s fuel r :
  _running s = true ->
  (iteration self s).1 = r ->
  (forall a, r <> Returns a) ->
  loop self (S fuel) s = (r, (iteration self s).2).
Proof.
  intros Hrun Hret Hr. cbn [loop]. rewrite Hrun. unfold bind.
  destruct (iteration self s) as [[a|e|h] s']; cbn in Hret; subst r;
    [by destruct (Hr a) | done | done].
Qed.

Lemma start_ends self s0 k s r :
  run_iterations self k (set_running true s0) = Some s ->
  _running s = true ->
  (iteration self s).1 = r ->
  (forall a, r <> Returns a) ->
  forall fuel, (k < fuel)%nat ->
    start self fuel s0 = (r, (iteration self s).2).
Proof.
  intros Hrun Hflag Hturn Hr fuel Hfuel.
  replace fuel with (k + S (fuel - S k))%nat by lia.
  unfold start, bind, modify.
  rewrite (loop_after_iterations _ _ _ _ _ Hrun).
  by apply loop_ends.
Qed.

Lemma start_ends_with self s0 k s e :
  run_iterations self k (set_running true s0) = Some s ->
  _running s = true ->
  (iteration self s).1 = Raises e ->
  forall fuel, (k < fuel)%nat ->
    start self fuel s0 = (Raises e, (iteration self s).2).
Proof.
  intros Hrun Hflag Hraise fuel Hfuel.
  by apply (start_ends self s0 k s (Raises e)).
Qed.

(** C6.  When [receive_message] raises in a turn of the loop, the turn
    ends with that very exception and has called nothing but
    [receive_message]; [start] ends with it as well, whatever fuel is
    left. *)
Theorem receive_failure_propagates self s0 k s e v :
  run_iterations self k (set_running true s0) = Some s ->
  _running s = true ->
  receive_message (_sqs_client self) (_sqs_client_params self) (view s)
    = (Raises e, v) ->
  iteration self s =
    (Raises e, with_view (log (EvReceiveMessage (_sqs_client_params self)) s) v) /\
  trace (iteration self s).2 = trace s ++ [EvReceiveMessage (_sqs_client_params self)] /\
  forall fuel, (k < fuel)%nat ->
    start self fuel s0 = (Raises e, (iteration self s).2).
Proof.
  intros Hrun Hflag Hrecv.
  assert (Hiter : iteration self s =
                    (Raises e, with_view (log (EvReceiveMessage (_sqs_client_params self)) s) v)).
  { unfold iteration, bind. by rewrite (call_run _ _ _ _ _ Hrecv). }
  split; [exact Hiter |]. split; [by rewrite Hiter |].
  intros fuel Hfuel. apply (start_ends_with self s0 k s e); try done.
  by rewrite Hiter.
Qed.

(** C7, as the code has it.  When a dispatch fails with an [Exception]
    and the callback it is routed to raises [e2], nothing in the class
    catches that, and the turn and [start] end there.  What leaves them is
    decided by the [time.sleep] of the [finally] block: [e2] itself when
    the sleep returns; when the sleep raises, the sleep's exception, with
    [e2] as its [__context__].  This holds for
    [handle_processing_exception] on the single path and for
    [handle_batch_processing_exception] on the batch path. *)
Theorem callback_failure_propagates
        self s0 k s response v raws messages x v1 left e2 v2 fin v3 :
  run_iterations self k (set_running true s0) = Some s ->
  _running s = true ->
  receive_message (_sqs_client self) (_sqs_client_params self) (view s)
    = (Returns response, v) ->
  Messages response = Some raws ->
  parse_messages raws = inr messages ->
  is_Exception x = true ->
  (batch_size self = 1 /\
   exists first rest,
     messages = first :: rest /\
     single_dispatch_fails self first v x v1 /\
     handle_processing_exception first x v1 = (Raises e2, v2))
  \/
  (batch_size self <> 1 /\
   messages <> [] /\
   batch_dispatch_fails self messages v x v1 left /\
   handle_batch_processing_exception left x v1 = (Raises e2, v2)) ->
  time_sleep (polling_wait_time_ms self # 1000) v2 = (fin, v3) ->
  (iteration self s).1 =
    match fin with
    | Returns _ => Raises e2
    | Raises raised => Raises (with_context raised e2)
    | Hangs h => Hangs h
    end /\
  forall fuel, (k < fuel)%nat ->
    start self fuel s0 =
      (match fin with
       | Returns _ => Raises e2
       | Raises raised => Raises (with_context raised e2)
       | Hangs h => Hangs h
       end,
       (iteration self s).2).
Proof.
  intros Hrun Hflag Hrecv Hmsgs Hparse Hexc Hcases Hsleep.
  assert (Hturn : (iteration self s).1 =
                    match fin with
                    | Returns _ => Raises e2
                    | Raises raised => Raises (with_context raised e2)
                    | Hangs h => Hangs h
                    end).
  { unfold iteration, bind. rewrite (call_run _ _ _ _ _ Hrecv), Hmsgs.
    destruct Hcases as [(Hsize & first & rest & -> & Hfail & Hcb)
                       |(Hsize & Hne & Hfail & Hcb)].
    - destruct raws as [|raw raws']; [discriminate |].
      rewrite Hparse, Hsize. cbn.
      open_dispatch.
      destruct Hfail as [Hh | (v0 & cause & Hh & Hd & Hc & ->)];
        steps; same_call; done.
    - destruct raws as [|raw raws']; [cbn in Hparse; congruence |].
      rewrite Hparse.
      destruct (Z.eqb_spec (batch_size self) 1) as [|_]; [done |].
      open_dispatch.
      destruct Hfail as [Hh | (v0 & cause & Hh & Hd & Hc & ->)];
        steps; same_call; done. }
  split; [exact Hturn |].
  intros fuel Hfuel. apply (start_ends self s0 k s); try done.
  intros a. by destruct fin.
Qed.

(** ** Construction *)

(** C4.  A batch size between 1 and 10 passes the check of [__init__]:
    construction then fails only for want of a region or inside
    [boto3.client], and it returns a consumer with that batch size as
    soon as a region and a client are at hand: the client passed in when
    it counts as true, the one [boto3.client] returns otherwise.  Any
    other batch size makes [__init__] raise [ValueError] before anything
    is built. *)
Theorem batch_size_checked_by_init (a : @InitArgs Client) s :
  (1 <= arg_batch_size a <= 10 ->
   batch_size_ok (arg_batch_size a) = true /\
   match __init__ a s with
   | (Returns self, _) => batch_size self = arg_batch_size a
   | (Raises e, s') =>
       e = region_error \/ exists region, trace s' = trace s ++ [EvBoto3Client region]
   | (Hangs _, s') => exists region, trace s' = trace s ++ [EvBoto3Client region]
   end /\
   (forall region client,
      (arg_region a = Some region /\ region <> "") \/
      ((arg_region a = None \/ arg_region a = Some "") /\
       os_environ s !! "AWS_DEFAULT_REGION" = Some region) ->
      arg_sqs_client a = Some client ->
      client_bool client = true ->
      exists self s',
        __init__ a s = (Returns self, s') /\
        batch_size self = arg_batch_size a /\
        _sqs_client self = client /\
        _running s' = false /\
        _sqs_thread s' = None) /\
   (forall region client v,
      (arg_region a = Some region /\ region <> "") \/
      ((arg_region a = None \/ arg_region a = Some "") /\
       os_environ s !! "AWS_DEFAULT_REGION" = Some region) ->
      arg_sqs_client a = None \/
      (exists passed, arg_sqs_client a = Some passed /\ client_bool passed = false) ->
      boto3_client region (view s) = (Returns client, v) ->
      exists self s',
        __init__ a s = (Returns self, s') /\
        batch_size self = arg_batch_size a /\
        _sqs_client self = client /\
        _running s' = false /\
        _sqs_thread s' = None))
  /\
  (~ (1 <= arg_batch_size a <= 10) ->
   __init__ a s =
     (Raises (new_exc ValueError
                "Batch size should be between 1 and 10, both inclusive"), s)).
Proof.
  split.
  - intros Hrange.
    assert (Hok : batch_size_ok (arg_batch_size a) = true).
    { unfold batch_size_ok. apply andb_true_intro. split; apply Z.leb_le; lia. }
    split; [exact Hok |]. unfold __init__. rewrite Hok. cbn [negb].
    split.
    + unfold bind, modify, gets, client_or_boto3, raise, ret.
      destruct (arg_region a) as [[|c r]|];
        destruct (arg_sqs_client a) as [client|]; cbn;
        try (destruct (os_environ s !! "AWS_DEFAULT_REGION") as [region|]; cbn);
        try destruct (client_bool client); cbn;
        try reflexivity; try (by left).
      all: match goal with
           | |- context [call ?ev ?op ?s1] =>
               let E := fresh "E" in
               destruct (op (view s1)) as [[client'| |] v'] eqn:E;
               rewrite (call_run ev op s1 _ v' E); cbn
           end.
      all: first [reflexivity | right; eexists; reflexivity | eexists; reflexivity].
    + split.
      * intros region client Hregion Hclient Htrue.
        unfold bind, modify, gets, client_or_boto3, raise, ret.
        rewrite Hclient, Htrue.
        destruct Hregion as [[-> Hne] | [[-> | ->] Henv]]; cbn.
        -- destruct region as [|c r]; [done |]. by eexists _, _.
        -- rewrite Henv. by eexists _, _.
        -- rewrite Henv. by eexists _, _.
      * intros region client v Hregion Hclient Hboto.
        assert (Hview : view (set_sqs_thread None s) = view s) by done.
        unfold bind, modify, gets, client_or_boto3, raise, ret.
        destruct Hclient as [-> | (passed & -> & ->)];
          destruct Hregion as [[-> Hne] | [[-> | ->] Henv]]; cbn;
          try (destruct region as [|c r]; [done |]); try rewrite Henv; cbn.
        all: erewrite call_run by (rewrite Hview; exact Hboto).
        all: by eexists _, _.
  - intros Hout. unfold __init__.
    assert (Hbad : batch_size_ok (arg_batch_size a) = false).
    { unfold batch_size_ok. apply andb_false_iff.
      destruct (Z.leb_spec 1 (arg_batch_size a)); [right | by left].
      apply Z.leb_gt. lia. }
    rewrite Hbad. reflexivity.
Qed.

(** ** Stopping *)

Lemma stop_daemon self s :
  daemon self = true ->
  stop self s = (Returns tt, set_running false s).
Proof. intros Hd. unfold stop, bind, modify. by rewrite Hd. Qed.

Lemma stop_twice_daemon self s :
  daemon self = true ->
  (stop self ;;; stop self)%py s = (Returns tt, set_running false s).
Proof. intros Hd. unfold bind. by rewrite !stop_daemon. Qed.

Lemma stop_without_thread self s :
  daemon self = false ->
  _sqs_thread s = None ->
  stop self s =
    (Raises (new_exc AttributeError "'NoneType' object has no attribute 'join'"),
     set_running false s).
Proof.
  intros Hd Hth. unfold stop, bind, modify, gets. rewrite Hd. cbn. by rewrite Hth.
Qed.

Lemma stop_joins_ended_thread self s t th :
  daemon self = false ->
  _sqs_thread s = Some t ->
  threads s !! t = Some th ->
  thread_phase th = Exited ->
  stop self s = (Returns tt, log (EvThreadJoin t) (set_running false s)).
Proof.
  intros Hd Hth Hlook Hphase. unfold stop, bind, modify, gets. rewrite Hd. cbn.
  rewrite Hth. unfold Thread_join. cbn. by rewrite Hlook, Hphase.
Qed.

Lemma stop_waits_for_live_thread self s t th :
  daemon self = false ->
  _sqs_thread s = Some t ->
  threads s !! t = Some th ->
  is_alive th = true ->
  stop self s = (Hangs (Joining t), log (EvThreadJoin t) (set_running false s)).
Proof.
  intros Hd Hth Hlook Halive. unfold stop, bind, modify, gets. rewrite Hd. cbn.
  rewrite Hth. unfold Thread_join. cbn. rewrite Hlook.
  unfold is_alive in Halive. by destruct (thread_phase th).
Qed.

(** ** Starting *)

(** A turn of the loop leaves the thread table and [_sqs_thread] alone. *)
Lemma iteration_keeps_threads self s :
  threads (iteration self s).2 = threads s /\
  _sqs_thread (iteration self s).2 = _sqs_thread s.
Proof.
  unfold iteration, bind.
  destruct (receive_message (_sqs_client self) (_sqs_client_params self) (view s))
    as [[response|e|h] v] eqn:Hrecv;
    rewrite (call_run _ _ _ _ _ Hrecv); [|done..].
  destruct (Messages response) as [[|raw raws]|].
  - open_dispatch. steps; done.
  - destruct (parse_messages (raw :: raws)) as [e|messages]; [done |].
    destruct (batch_size self =? 1); [destruct messages as [|first rest]; [done |] |];
      open_dispatch; steps; done.
  - open_dispatch. steps; done.
Qed.

Lemma loop_keeps_threads self fuel :
  forall s, threads (loop self fuel s).2 = threads s /\
            _sqs_thread (loop self fuel s).2 = _sqs_thread s.
Proof.
  induction fuel as [|fuel IH]; intros s; cbn [loop];
    destruct (_running s); try done.
  unfold bind. pose proof (iteration_keeps_threads self s) as [Hts Hth].
  destruct (iteration self s) as [[[]|e|h] s1]; cbn in *; try done.
  destruct (IH s1) as [Hts1 Hth1]. by rewrite Hts1, Hth1.
Qed.

Lemma start_keeps_threads self fuel s :
  threads (start self fuel s).2 = threads s /\
  _sqs_thread (start self fuel s).2 = _sqs_thread s.
Proof.
  unfold start, bind, modify. apply (loop_keeps_threads self fuel (set_running true s)).
Qed.

(** C9, as the code has it.  On a threaded consumer every call of
    [start_consumer] creates one new thread, starts it and stores it in
    [_sqs_thread], whatever threads are alive already: the number of live
    workers grows by one.  On a consumer that is not threaded the call is
    a call of [start] and creates no thread. *)
Theorem start_consumer_spawns_one_worker self s fuel :
  (threaded self = true ->
   exists s',
     start_consumer self fuel s = (Returns tt, s') /\
     threads s' = threads s ++
                    [{| thread_name := thread_name_prefix self +:+ (uuid4 (world s)).1;
                        thread_daemon := daemon self;
                        thread_phase := Spawned |}] /\
     _sqs_thread s' = Some (length (threads s)) /\
     alive_workers s' = S (alive_workers s)) /\
  (threaded self = false ->
   start_consumer self fuel s = start self fuel s /\
   threads (start_consumer self fuel s).2 = threads s /\
   _sqs_thread (start_consumer self fuel s).2 = _sqs_thread s).
Proof.
  split; intros Hth; unfold start_consumer; rewrite Hth; cbn [negb];
    [| split; [done | apply start_keeps_threads]].
  unfold bind, modify, Thread_new, Thread_start.
  destruct (uuid4 (world s)) as [u w] eqn:Hu. cbn.
  rewrite list_lookup_middle by done. cbn.
  eexists. split; [reflexivity |]. cbn.
  assert (Hts : alter (fun th => {| thread_name := thread_name th;
                                    thread_daemon := thread_daemon th;
                                    thread_phase := Spawned |})
                      (length (threads s))
                      (threads s ++ [{| thread_name := thread_name_prefix self +:+ u;
                                        thread_daemon := daemon self;
                                        thread_phase := Created |}])
                = threads s ++ [{| thread_name := thread_name_prefix self +:+ u;
                                   thread_daemon := daemon self;
                                   thread_phase := Spawned |}]).
  { replace (length (threads s)) with (length (threads s) + 0)%nat at 1 by lia.
    by rewrite alter_app_r. }
  rewrite Hts. split; [done |]. split; [done |].
  unfold alive_workers. rewrite List.filter_app, length_app. cbn. lia.
Qed.


(** * Further properties *)

(** ** What every turn of the loop does *)

(** Splits a turn on what the receive answered, on whether the messages
    parse, and on the dispatch path. *)
Ltac split_turn self s :=
  unfold iteration, bind;
  let Hrecv := fresh "Hrecv" in
  let response := fresh "response" in
  let v := fresh "v" in
  destruct (receive_message (_sqs_client self) (_sqs_client_params self) (view s))
    as [[response| |] v] eqn:Hrecv;
  rewrite (call_run _ _ _ _ _ Hrecv);
  [ let raw := fresh "raw" in
    let raws := fresh "raws" in
    destruct (Messages response) as [[|raw raws]|];
    [ | let messages := fresh "messages" in
        destruct (parse_messages (raw :: raws)) as [|messages] eqn:?;
        [ | destruct (batch_size self =? 1) eqn:?;
            [ destruct messages | ] ]
      | ]
  | | ].

(** X1.  A turn calls [receive_message] exactly once, first of all, with
    the parameters of [_sqs_client_params], whatever happens afterwards. *)
Theorem turn_receives_once self s :
  exists evs,
    trace (iteration self s).2
      = trace s ++ EvReceiveMessage (_sqs_client_params self) :: evs /\
    receive_message_calls evs = [].
Proof.
  split_turn self s; open_dispatch; steps.
  all: eexists; split; [cbn; rewrite <- ?app_assoc; cbn; reflexivity | reflexivity].
Qed.

(** X2.  The dispatch path is fixed by the configured batch size, not by
    what a receive returns: a consumer of batch size 1 never calls
    [handle_message_batch], [delete_message_batch] or
    [handle_batch_processing_exception]; any other consumer never calls
    [handle_message], [delete_message] or [handle_processing_exception].
    Either way a turn calls a handler at most once. *)
Theorem dispatch_path_fixed_by_batch_size self s :
  exists evs,
    trace (iteration self s).2 = trace s ++ evs /\
    (if batch_size self =? 1
     then handle_message_batch_calls evs = [] /\
          delete_message_batch_calls evs = [] /\
          handle_batch_processing_exception_calls evs = []
     else handle_message_calls evs = [] /\
          delete_message_calls evs = [] /\
          handle_processing_exception_calls evs = []) /\
    (length (handle_message_calls evs) + length (handle_message_batch_calls evs) <= 1)%nat.
Proof.
  destruct (batch_size self =? 1) eqn:Hsize.
  all: split_turn self s; try congruence; open_dispatch; steps; show_trace.
  all: cbn; repeat split; lia.
Qed.

(** X3.  A receive that answers no message (no ["Messages"] key, or an
    empty list) is followed by the inter-poll wait and nothing else: no
    handler, delete or callback is called, and the turn returns when the
    [time.sleep] of the wait does. *)
Theorem empty_response_only_waits self s response v v' :
  receive_message (_sqs_client self) (_sqs_client_params self) (view s)
    = (Returns response, v) ->
  Messages response = None \/ Messages response = Some [] ->
  time_sleep (polling_wait_time_ms self # 1000) v = (Returns tt, v') ->
  iteration self s =
    (Returns tt,
     with_view
       (log (EvSleep (polling_wait_time_ms self # 1000))
            (with_view (log (EvReceiveMessage (_sqs_client_params self)) s) v))
       v').
Proof.
  intros Hrecv Hempty Hsleep. unfold iteration, bind.
  rewrite (call_run _ _ _ _ _ Hrecv).
  destruct Hempty as [-> | ->]; erewrite _polling_wait_run; try done;
    by rewrite view_with_view.
Qed.

(** A turn that returns normally has called [receive_message] once and
    gone into the wait once, as the last thing it did, and the
    [time.sleep] of that wait returned. *)
Lemma returned_turn_shape self s s' :
  iteration self s = (Returns tt, s') ->
  (exists v v', time_sleep (polling_wait_time_ms self # 1000) v = (Returns tt, v')) /\
  exists evs,
    trace s' = trace s ++ evs ++ [EvSleep (polling_wait_time_ms self # 1000)] /\
    sleep_calls evs = [] /\
    receive_message_calls evs = [_sqs_client_params self].
Proof.
  split_turn self s; open_dispatch; steps; intros Hret; try discriminate Hret.
  all: inversion Hret; subst s'; clear Hret.
  all: split; [by eexists _, _ |].
  all: cbn; rewrite <- ?app_assoc; cbn.
  all: match goal with
       | |- @ex _ (fun evs => _ ++ ?l = _ /\ _) => exists (removelast l)
       end.
  all: cbn; repeat split; reflexivity.
Qed.

(** X4.  After [k] turns that all returned, the loop has called
    [receive_message] exactly [k] times, each time with the parameters of
    [_sqs_client_params], and has slept exactly [k] times, each time for
    [polling_wait_time_ms / 1000] seconds. *)
Theorem completed_turns_receive_and_sleep self k :
  forall s s',
    run_iterations self k s = Some s' ->
    exists evs,
      trace s' = trace s ++ evs /\
      receive_message_calls evs = replicate k (_sqs_client_params self) /\
      sleep_calls evs = replicate k (polling_wait_time_ms self # 1000).
Proof.
  induction k as [|k IH]; intros s s' Hrun; cbn in Hrun.
  - exists []. simplify_eq. by rewrite app_nil_r.
  - destruct (_running s); [|discriminate].
    destruct (iteration self s) as [[[]|e|h] s1] eqn:Hturn; try discriminate.
    destruct (returned_turn_shape self s s1 Hturn) as (_ & evs1 & Htr1 & Hsl1 & Hrc1).
    destruct (IH s1 s' Hrun) as (evs2 & Htr2 & Hrc2 & Hsl2).
    exists ((evs1 ++ [EvSleep (polling_wait_time_ms self # 1000)]) ++ evs2).
    split; [by rewrite Htr2, Htr1, <- !app_assoc |].
    unfold receive_message_calls, sleep_calls in *.
    rewrite !omap_app, Hrc1, Hrc2, Hsl1, Hsl2. by cbn.
Qed.

(** X5.  [__init__] takes any [polling_wait_time_ms].  When [time.sleep]
    raises for the configured wait, as it does for a negative one, no
    turn of the loop returns normally and [start] never returns; a turn
    whose receive returns and whose messages parse ends in an exception
    of the class that [time.sleep] raised, unless an outside call
    hangs. *)
Theorem failing_wait_never_completes self s :
  (forall v, exists raised v',
     time_sleep (polling_wait_time_ms self # 1000) v = (Raises raised, v')) ->
  (iteration self s).1 <> Returns tt /\
  (forall fuel, (start self fuel s).1 <> Returns tt) /\
  (forall response v,
     receive_message (_sqs_client self) (_sqs_client_params self) (view s)
       = (Returns response, v) ->
     (forall raws e, Messages response = Some raws -> parse_messages raws <> inl e) ->
     match (iteration self s).1 with
     | Returns _ => False
     | Raises e =>
         exists raised v0 v',
           time_sleep (polling_wait_time_ms self # 1000) v0 = (Raises raised, v') /\
           exc_class e = exc_class raised
     | Hangs _ => True
     end).
Proof.
  intros Hsleep.
  assert (Hturn : forall s0, (iteration self s0).1 <> Returns tt).
  { intros s0 Hret. destruct (iteration self s0) as [r s1] eqn:Hit. cbn in Hret. subst r.
    destruct (returned_turn_shape self s0 s1 Hit) as [(v & v' & Hv) _].
    destruct (Hsleep v) as (raised & v'' & Hr). congruence. }
  split; [apply Hturn |]. split.
  - intros fuel. unfold start, bind, modify.
    destruct fuel as [|fuel]; cbn; [discriminate |].
    unfold bind. pose proof (Hturn (set_running true s)) as Hne.
    destruct (iteration self (set_running true s)) as [[[]|e|h] s1]; cbn in *; congruence.
  - intros response v Hrecv Hparse.
    assert (Hnever : forall v0 v', time_sleep (polling_wait_time_ms self # 1000) v0
                                   <> (Returns tt, v')).
    { intros v0 v' Hv. destruct (Hsleep v0) as (raised & v'' & Hr). congruence. }
    unfold iteration, bind. rewrite (call_run _ _ _ _ _ Hrecv).
    destruct (Messages response) as [[|raw raws]|] eqn:Hmsgs.
    + open_dispatch. steps; first [done | by eexists _, _, _ | by edestruct Hnever].
    + destruct (parse_messages (raw :: raws)) as [e|messages] eqn:Hp;
        [by destruct (Hparse _ e eq_refl) |].
      destruct (batch_size self =? 1);
        [destruct messages as [|first rest] |].
      * cbn in Hp. destruct (Message_parse raw); [discriminate |].
        destruct (parse_messages raws); discriminate.
      * open_dispatch. steps; first [done | by eexists _, _, _ | by edestruct Hnever].
      * open_dispatch. steps; first [done | by eexists _, _, _ | by edestruct Hnever].
    + open_dispatch. steps; first [done | by eexists _, _, _ | by edestruct Hnever].
Qed.

(** ** Parsing the response *)

(** X6.  The comprehension over [response["Messages"]] succeeds exactly
    when every record parses, and then gives the parsed messages one for
    one, in the order of the response. *)
Theorem parse_messages_all_or_nothing (raws : list RawMessage) messages :
  parse_messages raws = inr messages <->
  Forall2 (fun raw message => Message_parse raw = inr message) raws messages.
Proof.
  revert messages. induction raws as [|raw raws IH]; intros messages; cbn.
  - split.
    + intros Heq. simplify_eq. constructor.
    + intros Hall. by inversion Hall.
  - split.
    + intros Heq. destruct (Message_parse raw) as [e|m] eqn:Hraw; [discriminate |].
      destruct (parse_messages raws) as [e|ms] eqn:Hrest; [discriminate |].
      simplify_eq. constructor; [done | by apply IH].
    + intros Hall. inversion Hall as [|? m ? ms Hraw Hrest]; subst.
      rewrite Hraw. apply IH in Hrest. by rewrite Hrest.
Qed.

(** X7.  When [Message.parse] raises on one record of the response, the
    records before it having parsed, that exception leaves the turn: no
    handler, delete or callback is called, not even for the records that
    did parse, and the turn does not sleep. *)
Theorem parse_failure_ends_turn self s response v (good : list RawMessage)
        parsed bad rest e :
  receive_message (_sqs_client self) (_sqs_client_params self) (view s)
    = (Returns response, v) ->
  Messages response = Some (good ++ bad :: rest) ->
  parse_messages good = inr parsed ->
  Message_parse bad = inl e ->
  iteration self s =
    (Raises e, with_view (log (EvReceiveMessage (_sqs_client_params self)) s) v).
Proof.
  intros Hrecv Hmsgs Hgood Hbad.
  assert (Hfail : parse_messages (good ++ bad :: rest) = inl e).
  { clear Hmsgs. revert parsed Hgood.
    induction good as [|raw good IH]; intros parsed Hgood; cbn.
    - by rewrite Hbad.
    - cbn in Hgood. destruct (Message_parse raw); [discriminate |].
      destruct (parse_messages good) as [|ms]; [discriminate |].
      by rewrite (IH ms). }
  unfold iteration, bind. rewrite (call_run _ _ _ _ _ Hrecv), Hmsgs.
  destruct (good ++ bad :: rest) as [|raw raws] eqn:Hlist.
  - by destruct good.
  - by rewrite Hfail.
Qed.


(** ** What [except Exception] lets through *)

(** X8.  An exception of the handler that does not derive from
    [Exception] ([KeyboardInterrupt], [SystemExit]) is not routed to the
    exception callback: nothing is deleted, the [finally] block goes into
    the wait, and when its [time.sleep] returns the exception leaves the
    dispatch as it is.  This holds on both paths. *)
Theorem handler_interrupt_not_routed self s e :
  is_Exception e = false ->
  (forall message v1,
     handle_message message (view s) = (Raises e, v1) ->
     exists evs,
       trace (_process_message self message s).2 = trace s ++ evs /\
       handle_processing_exception_calls evs = [] /\
       delete_message_calls evs = [] /\
       sleep_calls evs = [polling_wait_time_ms self # 1000] /\
       (forall v2,
          time_sleep (polling_wait_time_ms self # 1000) v1 = (Returns tt, v2) ->
          (_process_message self message s).1 = Raises e)) /\
  (forall messages v1 left,
     handle_message_batch messages (view s) = (Raises e, v1, left) ->
     exists evs,
       trace (_process_message_batch self messages s).2 = trace s ++ evs /\
       handle_batch_processing_exception_calls evs = [] /\
       delete_message_batch_calls evs = [] /\
       sleep_calls evs = [polling_wait_time_ms self # 1000] /\
       (forall v2,
          time_sleep (polling_wait_time_ms self # 1000) v1 = (Returns tt, v2) ->
          (_process_message_batch self messages s).1 = Raises e)).
Proof.
  intros Hbase. split.
  - intros message v1 Hh. open_dispatch. steps; same_call; show_trace.
    all: repeat split; try reflexivity; intros; same_call; done.
  - intros messages v1 left Hh. open_dispatch. steps; same_call; show_trace.
    all: repeat split; try reflexivity; intros; same_call; done.
Qed.

(** X9.  A delete that fails with an exception not deriving from
    [Exception] is not turned into an [SQSException] and not routed to the
    callback: after the one delete attempt the [finally] block goes into
    the wait, and when its [time.sleep] returns the exception leaves the
    dispatch as the client raised it.  This holds for [delete_message]
    and for [delete_message_batch]. *)
Theorem delete_interrupt_not_wrapped self s e :
  is_Exception e = false ->
  (forall message v1 v2,
     handle_message message (view s) = (Returns tt, v1) ->
     delete_message (_sqs_client self) (queue_url self) (ReceiptHandle message) v1
       = (Raises e, v2) ->
     exists evs,
       trace (_process_message self message s).2 = trace s ++ evs /\
       delete_message_calls evs = [(queue_url self, ReceiptHandle message)] /\
       handle_processing_exception_calls evs = [] /\
       (forall v3,
          time_sleep (polling_wait_time_ms self # 1000) v2 = (Returns tt, v3) ->
          (_process_message self message s).1 = Raises e)) /\
  (forall messages v1 left v2,
     handle_message_batch messages (view s) = (Returns tt, v1, left) ->
     delete_message_batch (_sqs_client self) (queue_url self) (delete_entries left) v1
       = (Raises e, v2) ->
     exists evs,
       trace (_process_message_batch self messages s).2 = trace s ++ evs /\
       delete_message_batch_calls evs = [(queue_url self, delete_entries left)] /\
       handle_batch_processing_exception_calls evs = [] /\
       (forall v3,
          time_sleep (polling_wait_time_ms self # 1000) v2 = (Returns tt, v3) ->
          (_process_message_batch self messages s).1 = Raises e)).
Proof.
  intros Hbase. split.
  - intros message v1 v2 Hh Hd. open_dispatch. steps; same_call; show_trace.
    all: repeat split; try reflexivity; intros; same_call; done.
  - intros messages v1 left v2 Hh Hd. open_dispatch. steps; same_call; show_trace.
    all: repeat split; try reflexivity; intros; same_call; done.
Qed.

(** ** Process, then acknowledge *)

(** X10.  Every dispatch starts with the handler call.  A delete is
    attempted only after the handler has returned, at most once, and it
    is then the very next call; the handler is not called a second
    time.  This holds on both paths; on the batch path the delete is
    built from the list as the handler left it. *)
Theorem handler_precedes_delete self s :
  (forall message,
     exists evs,
       trace (_process_message self message s).2
         = trace s ++ EvHandleMessage message :: evs /\
       handle_message_calls evs = [] /\
       (delete_message_calls evs = [] \/
        (exists v1, handle_message message (view s) = (Returns tt, v1)) /\
        exists evs', evs = EvDeleteMessage (queue_url self) (ReceiptHandle message) :: evs' /\
                     delete_message_calls evs' = [])) /\
  (forall messages,
     exists evs,
       trace (_process_message_batch self messages s).2
         = trace s ++ EvHandleMessageBatch messages :: evs /\
       handle_message_batch_calls evs = [] /\
       (delete_message_batch_calls evs = [] \/
        exists v1 left,
          handle_message_batch messages (view s) = (Returns tt, v1, left) /\
          exists evs', evs = EvDeleteMessageBatch (queue_url self) (delete_entries left)
                               :: evs' /\
                       delete_message_batch_calls evs' = [])).
Proof.
  split.
  - intros message. open_dispatch. steps.
    all: eexists; split; [cbn; rewrite <- ?app_assoc; cbn; reflexivity |].
    all: split; [reflexivity |].
    all: first [by left | right; split; [by eexists | by eexists]].
  - intros messages. open_dispatch. steps.
    all: eexists; split; [cbn; rewrite <- ?app_assoc; cbn; reflexivity |].
    all: split; [reflexivity |].
    all: first [by left | right; eexists _, _; split; [done | by eexists]].
Qed.

(** ** Failures that do not stop the loop *)

(** X11.  When a dispatch fails with an [Exception], be it the handler's
    or the [SQSException] of a failed delete, and the callback it is
    routed to returns, the dispatch returns normally as soon as the
    [time.sleep] of its [finally] block returns: the failure does not
    reach the loop, and the next turn starts from the state the sleep
    left.  This holds on both paths. *)
Theorem callback_return_absorbs_failure self s x :
  is_Exception x = true ->
  (forall message v1 v2 v3,
     single_dispatch_fails self message (view s) x v1 ->
     handle_processing_exception message x v1 = (Returns tt, v2) ->
     time_sleep (polling_wait_time_ms self # 1000) v2 = (Returns tt, v3) ->
     (_process_message self message s).1 = Returns tt /\
     view (_process_message self message s).2 = v3) /\
  (forall messages v1 left v2 v3,
     batch_dispatch_fails self messages (view s) x v1 left ->
     handle_batch_processing_exception left x v1 = (Returns tt, v2) ->
     time_sleep (polling_wait_time_ms self # 1000) v2 = (Returns tt, v3) ->
     (_process_message_batch self messages s).1 = Returns tt /\
     view (_process_message_batch self messages s).2 = v3).
Proof.
  intros Hexc. split.
  - intros message v1 v2 v3 [Hh | (v0 & cause & Hh & Hd & Hc & ->)] Hcb Hsleep;
      open_dispatch; steps; same_call;
      (split; [done | by rewrite ?view_set_messages_obj, view_with_view]).
  - intros messages v1 left v2 v3 [Hh | (v0 & cause & Hh & Hd & Hc & ->)] Hcb Hsleep;
      open_dispatch; steps; same_call;
      (split; [done | by rewrite ?view_set_messages_obj, view_with_view]).
Qed.

(** ** Stopping and starting *)

(** What [stop] leaves behind, whatever it answers. *)
Lemma stop_state self s :
  (stop self s).2 = set_running false s \/
  exists t, (stop self s).2 = log (EvThreadJoin t) (set_running false s).
Proof.
  unfold stop, bind, modify, gets. cbn.
  destruct (daemon self); cbn; [by left |].
  destruct (_sqs_thread s) as [t|]; cbn; [|by left].
  right. exists t. unfold Thread_join. cbn.
  destruct (threads s !! t) as [th|]; [destruct (thread_phase th) |]; reflexivity.
Qed.

(** X12.  [stop] clears [_running] on every path, also when it goes on to
    raise or to wait in [join]; it calls neither the queue nor a handler,
    and leaves the thread table and [_sqs_thread] as they were. *)
Theorem stop_always_clears_flag self s :
  _running (stop self s).2 = false /\
  world (stop self s).2 = world s /\
  threads (stop self s).2 = threads s /\
  _sqs_thread (stop self s).2 = _sqs_thread s /\
  exists evs,
    trace (stop self s).2 = trace s ++ evs /\
    (evs = [] \/ exists t, _sqs_thread s = Some t /\ evs = [EvThreadJoin t]).
Proof.
  unfold stop, bind, modify, gets. cbn.
  destruct (daemon self); cbn.
  { repeat split; try done. exists []. split; [by rewrite app_nil_r | by left]. }
  destruct (_sqs_thread s) as [t|] eqn:Hth; cbn.
  2: { repeat split; try done. exists []. split; [by rewrite app_nil_r | by left]. }
  unfold Thread_join. cbn.
  destruct (threads s !! t) as [th|]; [destruct (thread_phase th) |]; cbn.
  all: repeat split; try done.
  all: exists [EvThreadJoin t]; split; [done | right; by exists t].
Qed.

(** X13.  Stopping a worker that is not a daemon is cooperative: while the
    worker is inside the loop [stop] waits in [join]; the worker's next
    loop test finds the flag cleared and ends the thread without another
    call to the queue; after that [stop] returns. *)
Theorem stop_returns_after_worker_sees_flag self s t th :
  daemon self = false ->
  _sqs_thread s = Some t ->
  threads s !! t = Some th ->
  thread_phase th = Looping ->
  (stop self s).1 = Hangs (Joining t) /\
  thread_phase <$> threads (worker_step self t (stop self s).2) !! t = Some Exited /\
  trace (worker_step self t (stop self s).2) = trace (stop self s).2 /\
  (stop self (worker_step self t (stop self s).2)).1 = Returns tt.
Proof.
  intros Hd Hth Hlook Hphase.
  assert (Halive : is_alive th = true) by (unfold is_alive; by rewrite Hphase).
  rewrite (stop_waits_for_live_thread self s t th Hd Hth Hlook Halive). cbn [fst snd].
  split; [done |].
  assert (Hstep : worker_step self t (log (EvThreadJoin t) (set_running false s))
                  = set_phase t Exited (log (EvThreadJoin t) (set_running false s))).
  { unfold worker_step. cbn. by rewrite Hlook, Hphase. }
  rewrite Hstep.
  assert (Hended : threads (set_phase t Exited (log (EvThreadJoin t) (set_running false s)))
                     !! t
                   = Some {| thread_name := thread_name th;
                             thread_daemon := thread_daemon th;
                             thread_phase := Exited |}).
  { cbn. by rewrite list_lookup_alter_eq, Hlook. }
  split; [by rewrite Hended |]. split; [done |].
  by erewrite stop_joins_ended_thread.
Qed.

(** X14.  [start] begins by setting [_running]: a [stop] issued after
    [start_consumer] but before the worker has run its first statement is
    undone by the worker, which then goes on into the loop. *)
Theorem stop_before_worker_enters_is_undone self s t th :
  threads s !! t = Some th ->
  thread_phase th = Spawned ->
  _running (stop self s).2 = false /\
  _running (worker_step self t (stop self s).2) = true /\
  thread_phase <$> threads (worker_step self t (stop self s).2) !! t = Some Looping.
Proof.
  intros Hlook Hphase.
  assert (Hstep : forall s1, threads s1 = threads s ->
            _running (worker_step self t s1) = true /\
            thread_phase <$> threads (worker_step self t s1) !! t = Some Looping).
  { intros s1 Hts. unfold worker_step. rewrite Hts, Hlook, Hphase. cbn.
    by rewrite Hts, list_lookup_alter_eq, Hlook. }
  destruct (stop_state self s) as [-> | [t' ->]]; (split; [done | by apply Hstep]).
Qed.

Lemma loop_returns_stopped self fuel :
  forall s s', loop self fuel s = (Returns tt, s') -> _running s' = false.
Proof.
  induction fuel as [|fuel IH]; intros s s' Hloop; cbn [loop] in Hloop;
    destruct (_running s) eqn:Hflag; try discriminate; try by simplify_eq.
  unfold bind in Hloop.
  destruct (iteration self s) as [[[]|e|h] s1]; try discriminate. by eapply IH.
Qed.

(** X15.  [start] returns only once [_running] is false: as long as nobody
    clears the flag, the loop goes on receiving. *)
Theorem start_returns_only_when_stopped self fuel s s' :
  start self fuel s = (Returns tt, s') ->
  _running s' = false.
Proof.
  unfold start, bind, modify. apply loop_returns_stopped.
Qed.

(** X16.  On a threaded consumer [start_consumer] returns at once: all it
    does is start the thread.  It calls nothing on the queue, and it
    leaves [_running] as it was; the flag is set by the worker when it
    runs. *)
Theorem start_consumer_threaded_returns_at_once self s fuel :
  threaded self = true ->
  (start_consumer self fuel s).1 = Returns tt /\
  trace (start_consumer self fuel s).2 = trace s ++ [EvThreadStart (length (threads s))] /\
  _running (start_consumer self fuel s).2 = _running s.
Proof.
  intros Hth. unfold start_consumer. rewrite Hth. cbn [negb].
  unfold bind, modify, Thread_new, Thread_start.
  destruct (uuid4 (world s)) as [u w]. cbn.
  by rewrite list_lookup_middle.
Qed.


(** ** More on construction *)

Lemma batch_size_ok_range z : 1 <= z <= 10 -> batch_size_ok z = true.
Proof.
  intros Hrange. unfold batch_size_ok. apply andb_true_intro.
  split; apply Z.leb_le; lia.
Qed.

Ltac open_init :=
  unfold __init__, bind, modify, gets, client_or_boto3, raise, ret.

(** Runs the call of [boto3.client] in the goal, splitting on its outcome. *)
Ltac step_boto3 :=
  match goal with
  | |- context [call ?ev ?op ?s1] =>
      let E := fresh "E" in
      let v' := fresh "v" in
      destruct (op (view s1)) as [[?| |] v'] eqn:E;
      rewrite (call_run ev op s1 _ v' E); cbn
  end.

(** X17.  Without a region, neither as an argument (missing or empty) nor
    in [AWS_DEFAULT_REGION], construction fails with the plain
    [Exception] asking for one, also when an [sqs_client] was passed
    in. *)
Theorem init_without_region_fails (a : @InitArgs Client) s :
  1 <= arg_batch_size a <= 10 ->
  arg_region a = None \/ arg_region a = Some "" ->
  os_environ s !! "AWS_DEFAULT_REGION" = None ->
  __init__ a s = (Raises region_error, set_sqs_thread None s) /\
  exc_class region_error = Exception.
Proof.
  intros Hrange Hregion Henv. split; [|done].
  open_init. rewrite (batch_size_ok_range _ Hrange). cbn.
  destruct Hregion as [-> | ->]; cbn; by rewrite Henv.
Qed.

(** X18.  When no [sqs_client] is passed in, [__init__] calls
    [boto3.client] exactly once, for the region argument when it is not
    empty (whatever the environment says) and for [AWS_DEFAULT_REGION]
    otherwise; the client it gets is the one the consumer keeps, and an
    exception of [boto3.client] leaves [__init__] as it is. *)
Theorem init_builds_client_for_region (a : @InitArgs Client) s region :
  1 <= arg_batch_size a <= 10 ->
  arg_sqs_client a = None ->
  (arg_region a = Some region /\ region <> "") \/
  ((arg_region a = None \/ arg_region a = Some "") /\
   os_environ s !! "AWS_DEFAULT_REGION" = Some region) ->
  (exists evs,
     trace (__init__ a s).2 = trace s ++ EvBoto3Client region :: evs /\
     boto3_client_calls evs = []) /\
  (forall client v,
     boto3_client region (view s) = (Returns client, v) ->
     exists self s', __init__ a s = (Returns self, s') /\ _sqs_client self = client) /\
  (forall e v,
     boto3_client region (view s) = (Raises e, v) ->
     (__init__ a s).1 = Raises e).
Proof.
  intros Hrange Hclient Hregion.
  open_init. rewrite (batch_size_ok_range _ Hrange), Hclient. cbn.
  assert (Hview : view (set_sqs_thread None s) = view s) by done.
  destruct Hregion as [[-> Hne] | [[-> | ->] Henv]]; cbn;
    try (destruct region as [|c r]; [done |]); try rewrite Henv; cbn.
  all: step_boto3; rewrite Hview in *.
  all: split; [eexists; split; [cbn; rewrite <- ?app_assoc; cbn; reflexivity | done] |].
  all: split; intros; same_call; try done; by eexists _, _.
Qed.

(** X19.  When an [sqs_client] that counts as true is passed in (the
    test of [sqs_client or ...]), [__init__] never calls [boto3.client],
    and a consumer it returns keeps the client it was given. *)
Theorem init_keeps_supplied_client (a : @InitArgs Client) s client :
  arg_sqs_client a = Some client ->
  client_bool client = true ->
  (exists evs,
     trace (__init__ a s).2 = trace s ++ evs /\ boto3_client_calls evs = []) /\
  (forall self s', __init__ a s = (Returns self, s') -> _sqs_client self = client).
Proof.
  intros Hclient Htrue. open_init. rewrite Hclient, Htrue.
  destruct (batch_size_ok (arg_batch_size a)); cbn.
  2: { split; [exists []; by rewrite app_nil_r | intros; discriminate]. }
  destruct (arg_region a) as [[|c r]|]; cbn;
    try (destruct (os_environ s !! "AWS_DEFAULT_REGION"); cbn).
  all: split; [| intros; by simplify_eq].
  all: first [by exists [EvAtexitRegisterStop] | exists []; by rewrite app_nil_r].
Qed.

(** X23.  A client passed in that does not count as true is dropped by
    [sqs_client or ...]: [__init__] calls [boto3.client] exactly once,
    for the region, as if no client had been passed; the client it gets
    is the one the consumer keeps, and an exception of [boto3.client]
    leaves [__init__] as it is. *)
Theorem init_replaces_false_client (a : @InitArgs Client) s passed region :
  1 <= arg_batch_size a <= 10 ->
  arg_sqs_client a = Some passed ->
  client_bool passed = false ->
  (arg_region a = Some region /\ region <> "") \/
  ((arg_region a = None \/ arg_region a = Some "") /\
   os_environ s !! "AWS_DEFAULT_REGION" = Some region) ->
  (exists evs,
     trace (__init__ a s).2 = trace s ++ EvBoto3Client region :: evs /\
     boto3_client_calls evs = []) /\
  (forall client v,
     boto3_client region (view s) = (Returns client, v) ->
     exists self s', __init__ a s = (Returns self, s') /\ _sqs_client self = client) /\
  (forall e v,
     boto3_client region (view s) = (Raises e, v) ->
     (__init__ a s).1 = Raises e).
Proof.
  intros Hrange Hclient Hfalse Hregion.
  open_init. rewrite (batch_size_ok_range _ Hrange), Hclient, Hfalse. cbn.
  assert (Hview : view (set_sqs_thread None s) = view s) by done.
  destruct Hregion as [[-> Hne] | [[-> | ->] Henv]]; cbn;
    try (destruct region as [|c r]; [done |]); try rewrite Henv; cbn.
  all: step_boto3; rewrite Hview in *.
  all: split; [eexists; split; [cbn; rewrite <- ?app_assoc; cbn; reflexivity | done] |].
  all: split; intros; same_call; try done; by eexists _, _.
Qed.

(** X20.  A consumer that [__init__] returns carries the arguments it was
    built from, under the thread-name prefix ["aws_sqs_thread"]; its batch
    size lies between 1 and 10; it is not running and has no thread; and
    the last thing [__init__] did was to register [stop] with [atexit],
    once. *)
Theorem init_returns_configured_consumer (a : @InitArgs Client) s self s' :
  __init__ a s = (Returns self, s') ->
  queue_url self = arg_queue_url a /\
  attribute_names self = arg_attribute_names a /\
  message_attribute_names self = arg_message_attribute_names a /\
  batch_size self = arg_batch_size a /\
  1 <= batch_size self <= 10 /\
  wait_time_seconds self = arg_wait_time_seconds a /\
  visibility_timeout_seconds self = arg_visibility_timeout_seconds a /\
  polling_wait_time_ms self = arg_polling_wait_time_ms a /\
  daemon self = arg_daemon a /\
  threaded self = arg_threaded a /\
  thread_name_prefix self = "aws_sqs_thread" +:+ arg_thread_name a /\
  _running s' = false /\
  _sqs_thread s' = None /\
  threads s' = threads s /\
  exists evs,
    trace s' = trace s ++ evs ++ [EvAtexitRegisterStop] /\
    (evs = [] \/ exists region, evs = [EvBoto3Client region]).
Proof.
  open_init.
  destruct (batch_size_ok (arg_batch_size a)) eqn:Hok; cbn; [|discriminate].
  assert (Hrange : 1 <= arg_batch_size a <= 10).
  { unfold batch_size_ok in Hok. apply andb_prop in Hok as [Hlo Hhi].
    apply Z.leb_le in Hlo, Hhi. lia. }
  destruct (arg_region a) as [[|c r]|]; cbn;
    try (destruct (os_environ s !! "AWS_DEFAULT_REGION"); cbn; [|discriminate]);
    destruct (arg_sqs_client a) as [client|]; cbn;
    try destruct (client_bool client); cbn; try step_boto3;
    intros Hret; simplify_eq; cbn.
  all: repeat (split; [done |]).
  all: first [ exists []; split; [done | by left]
             | eexists [_]; split; [by rewrite <- app_assoc | right; by eexists] ].
Qed.


(** X22.  An exception that leaves a turn ends the worker thread that ran
    it.  Nothing clears [_running] on that way out: the flag stays as the
    turn left it, so a consumer whose worker has died still reads as
    running, and the worker makes no further call. *)
Theorem escaping_exception_ends_worker self s t th e s1 :
  threads s !! t = Some th ->
  thread_phase th = Looping ->
  _running s = true ->
  iteration self s = (Raises e, s1) ->
  thread_phase <$> threads (worker_step self t s) !! t = Some Exited /\
  _running (worker_step self t s) = _running s1 /\
  trace (worker_step self t s) = trace s1 /\
  worker_step self t (worker_step self t s) = worker_step self t s.
Proof.
  intros Hlook Hphase Hflag Hturn.
  pose proof (iteration_keeps_threads self s) as [Hts _]. rewrite Hturn in Hts. cbn in Hts.
  assert (Hstep : worker_step self t s = set_phase t Exited s1).
  { unfold worker_step. by rewrite Hlook, Hphase, Hflag, Hturn. }
  assert (Hended : threads (set_phase t Exited s1) !! t
                   = Some {| thread_name := thread_name th;
                             thread_daemon := thread_daemon th;
                             thread_phase := Exited |}).
  { cbn. by rewrite list_lookup_alter_eq, Hts, Hlook. }
  rewrite Hstep. split; [by rewrite Hended |]. split; [done |]. split; [done |].
  unfold worker_step at 1. by rewrite Hended.
Qed.

End Properties.

(** * The properties on the scripted queue *)

Section Runs.

Import Demo.


(** C2, as the code has it, on the scripted queue: the handler fails on
    the first message. *)
Lemma handle_message_raises_witness :
  exists evs,
    trace (iteration (consumer 1 true true) (running [inr [m_boom; m_ok]])).2
      = trace (running [inr [m_boom; m_ok]]) ++ evs /\
    handle_message_calls evs = [m_boom] /\
    delete_message_calls evs = [] /\
    (is_Exception handler_error = true ->
     handle_processing_exception_calls evs = [(m_boom, handler_error)] /\
     (forall v2 v3,
        handle_processing_exception m_boom handler_error (seen []) = (Returns tt, v2) ->
        time_sleep (polling_wait_time_ms (consumer 1 true true) # 1000) v2
          = (Returns tt, v3) ->
        (iteration (consumer 1 true true) (running [inr [m_boom; m_ok]])).1 = Returns tt /\
        (_running (running [inr [m_boom; m_ok]]) = true ->
         forall fuel,
           loop (consumer 1 true true) (S fuel) (running [inr [m_boom; m_ok]])
           = loop (consumer 1 true true) fuel
                  (iteration (consumer 1 true true) (running [inr [m_boom; m_ok]])).2)) /\
     (forall v2 raised v3,
        handle_processing_exception m_boom handler_error (seen []) = (Returns tt, v2) ->
        time_sleep (polling_wait_time_ms (consumer 1 true true) # 1000) v2
          = (Raises raised, v3) ->
        (iteration (consumer 1 true true) (running [inr [m_boom; m_ok]])).1
          = Raises raised /\
        (_running (running [inr [m_boom; m_ok]]) = true ->
         forall fuel,
           loop (consumer 1 true true) (S fuel) (running [inr [m_boom; m_ok]])
           = (Raises raised,
              (iteration (consumer 1 true true) (running [inr [m_boom; m_ok]])).2)))).
Proof.
  apply (handle_message_raises (consumer 1 true true) (running [inr [m_boom; m_ok]])
           {| Messages := Some [m_boom; m_ok] |} (seen []) [m_boom; m_ok]
           m_boom [m_ok] handler_error (seen []));
    reflexivity.
Defined.

(** C2 as stated fails: after a failing handler the loop does not always
    go on.  It ends when the callback raises, and it ends when the
    [time.sleep] of the [finally] block raises, as on a wait of -1 ms;
    in both runs a second answer was waiting and was never received. *)
Lemma handler_failure_can_end_the_loop :
  (handle_message m_poison (seen [inr [m_ok]])
     = (Raises handler_error, seen [inr [m_ok]]) /\
   (start (consumer 1 true true) 5 (fresh [inr [m_poison]; inr [m_ok]])).1
     = Raises (with_context callback_error handler_error) /\
   receive_message_calls
     (trace (start (consumer 1 true true) 5 (fresh [inr [m_poison]; inr [m_ok]])).2)
     = [_sqs_client_params (consumer 1 true true)]) /\
  (handle_message m_boom (seen [inr [m_ok]])
     = (Raises handler_error, seen [inr [m_ok]]) /\
   handle_processing_exception m_boom handler_error (seen [inr [m_ok]])
     = (Returns tt, seen [inr [m_ok]]) /\
   (iteration (waiting (-1) 1) (running [inr [m_boom]; inr [m_ok]])).1
     = Raises (new_exc ValueError "sleep length must be non-negative") /\
   (start (waiting (-1) 1) 5 (fresh [inr [m_boom]; inr [m_ok]])).1
     = Raises (new_exc ValueError "sleep length must be non-negative") /\
   receive_message_calls
     (trace (start (waiting (-1) 1) 5 (fresh [inr [m_boom]; inr [m_ok]])).2)
     = [_sqs_client_params (waiting (-1) 1)]).
Proof. repeat split; vm_compute; reflexivity. Qed.

(** C3, as the code has it, on the scripted queue: a batch of two. *)
Lemma handle_message_batch_once_witness :
  exists evs,
    trace (iteration (consumer 5 true true) (running [inr [m_ok; m_late]])).2
      = trace (running [inr [m_ok; m_late]]) ++ evs /\
    handle_message_batch_calls evs = [[m_ok; m_late]] /\
    handle_message_calls evs = [] /\
    (forall v1 left,
       handle_message_batch [m_ok; m_late] (seen []) = (Returns tt, v1, left) ->
       exists entries,
         delete_message_batch_calls evs = [(queue_url (consumer 5 true true), entries)] /\
         Forall2 (fun message entry =>
                    Id entry = MessageId message /\
                    EntryReceiptHandle entry = ReceiptHandle message)
                 left entries /\
         (forall v2,
            delete_message_batch (_sqs_client (consumer 5 true true))
                                 (queue_url (consumer 5 true true)) entries v1
              = (Returns tt, v2) ->
            handle_batch_processing_exception_calls evs = []) /\
         (forall cause v2,
            delete_message_batch (_sqs_client (consumer 5 true true))
                                 (queue_url (consumer 5 true true)) entries v1
              = (Raises cause, v2) ->
            is_Exception cause = true ->
            handle_batch_processing_exception_calls evs =
              [(left,
                with_context (new_exc SQSException "Failed to delete message batch")
                             cause)])) /\
    (forall e v1 left,
       handle_message_batch [m_ok; m_late] (seen []) = (Raises e, v1, left) ->
       delete_message_batch_calls evs = [] /\
       (is_Exception e = true ->
        handle_batch_processing_exception_calls evs = [(left, e)])).
Proof.
  apply (handle_message_batch_once (consumer 5 true true) (running [inr [m_ok; m_late]])
           {| Messages := Some [m_ok; m_late] |} (seen []) [m_ok; m_late]
           [m_ok; m_late]);
    first [reflexivity | cbn; lia].
Defined.

(** C3 as stated fails: a batch handler that takes a message off the list
    it was given and returns has the delete built from what is left.  Of
    the two messages received, one is deleted. *)
Lemma batch_handler_can_shrink_the_batch :
  handle_message_batch (Handlers := trimming_handlers) [m_ok; m_late] (seen [])
    = (Returns tt, seen [], [m_ok]) /\
  handle_message_batch_calls
    (trace (iteration (H0 := trimming_handlers) (consumer 5 true true)
                      (running [inr [m_ok; m_late]])).2)
    = [[m_ok; m_late]] /\
  delete_message_batch_calls
    (trace (iteration (H0 := trimming_handlers) (consumer 5 true true)
                      (running [inr [m_ok; m_late]])).2)
    = [(queue_url (consumer 5 true true),
        [{| Id := MessageId m_ok; EntryReceiptHandle := ReceiptHandle m_ok |}])] /\
  delete_message_batch_calls
    (trace (iteration (H0 := trimming_handlers) (consumer 5 true true)
                      (running [inr [m_ok; m_late]])).2)
    <> [(queue_url (consumer 5 true true),
         [{| Id := MessageId m_ok; EntryReceiptHandle := ReceiptHandle m_ok |};
          {| Id := MessageId m_late; EntryReceiptHandle := ReceiptHandle m_late |}])].
Proof. repeat split; try reflexivity. vm_compute. discriminate. Qed.

(** C4 at the batch sizes 5 and 11. *)
Lemma batch_size_checked_by_init_witness :
  (batch_size_ok (arg_batch_size (args 5 true true)) = true /\
   match __init__ (args 5 true true) (fresh []) with
   | (Returns self, _) => batch_size self = arg_batch_size (args 5 true true)
   | (Raises e, s') =>
       e = region_error \/
       exists region, trace s' = trace (fresh []) ++ [EvBoto3Client region]
   | (Hangs _, s') =>
       exists region, trace s' = trace (fresh []) ++ [EvBoto3Client region]
   end /\
   (forall region client,
      (arg_region (args 5 true true) = Some region /\ region <> "") \/
      ((arg_region (args 5 true true) = None \/ arg_region (args 5 true true) = Some "") /\
       os_environ (fresh []) !! "AWS_DEFAULT_REGION" = Some region) ->
      arg_sqs_client (args 5 true true) = Some client ->
      client_bool client = true ->
      exists self s',
        __init__ (args 5 true true) (fresh []) = (Returns self, s') /\
        batch_size self = arg_batch_size (args 5 true true) /\
        _sqs_client self = client /\
        _running s' = false /\
        _sqs_thread s' = None) /\
   (forall region client v,
      (arg_region (args 5 true true) = Some region /\ region <> "") \/
      ((arg_region (args 5 true true) = None \/ arg_region (args 5 true true) = Some "") /\
       os_environ (fresh []) !! "AWS_DEFAULT_REGION" = Some region) ->
      arg_sqs_client (args 5 true true) = None \/
      (exists passed,
         arg_sqs_client (args 5 true true) = Some passed /\ client_bool passed = false) ->
      boto3_client region (view (fresh [])) = (Returns client, v) ->
      exists self s',
        __init__ (args 5 true true) (fresh []) = (Returns self, s') /\
        batch_size self = arg_batch_size (args 5 true true) /\
        _sqs_client self = client /\
        _running s' = false /\
        _sqs_thread s' = None))
  /\
  __init__ (args 11 true true) (fresh []) =
    (Raises (new_exc ValueError
               "Batch size should be between 1 and 10, both inclusive"), fresh []).
Proof.
  split.
  - apply (proj1 (batch_size_checked_by_init (args 5 true true) (fresh []))).
    cbn. lia.
  - apply (proj2 (batch_size_checked_by_init (args 11 true true) (fresh []))).
    cbn. lia.
Defined.

(** C5 on the scripted queue: an expired receipt handle. *)
Lemma delete_failure_wrapped_witness :
  (exists evs wrapped,
     trace (_process_message (consumer 1 true true) m_expired (running [])).2
       = trace (running []) ++ evs /\
     delete_message_calls evs
       = [(queue_url (consumer 1 true true), ReceiptHandle m_expired)] /\
     handle_processing_exception_calls evs = [(m_expired, wrapped)] /\
     exc_class wrapped = SQSException /\
     exc_msg wrapped = "Failed to delete message" /\
     exc_cause wrapped = None /\
     exc_context wrapped = Some client_error) /\
  (exists evs wrapped,
     trace (_process_message_batch (consumer 5 true true) [m_ok; m_expired]
                                   (running [])).2
       = trace (running []) ++ evs /\
     delete_message_batch_calls evs
       = [(queue_url (consumer 5 true true), delete_entries [m_ok; m_expired])] /\
     handle_batch_processing_exception_calls evs = [([m_ok; m_expired], wrapped)] /\
     exc_class wrapped = SQSException /\
     exc_msg wrapped = "Failed to delete message batch" /\
     exc_cause wrapped = None /\
     exc_context wrapped = Some client_error).
Proof.
  split.
  - apply (proj1 (delete_failure_wrapped (consumer 1 true true) (running [])
                    client_error eq_refl) m_expired (seen []) (seen []));
      reflexivity.
  - apply (proj2 (delete_failure_wrapped (consumer 5 true true) (running [])
                    client_error eq_refl) [m_ok; m_expired] (seen []) [m_ok; m_expired]
             (seen []));
      reflexivity.
Defined.

(** C6 on the scripted queue: the second receive cannot reach the
    endpoint. *)
Lemma receive_failure_propagates_witness :
  iteration (consumer 1 true true)
            (iteration (consumer 1 true true)
                       (running [inr [m_ok]; inl endpoint_error])).2
  = (Raises endpoint_error,
     with_view
       (log (EvReceiveMessage (_sqs_client_params (consumer 1 true true)))
            (iteration (consumer 1 true true)
                       (running [inr [m_ok]; inl endpoint_error])).2)
       (seen [])) /\
  trace (iteration (consumer 1 true true)
                   (iteration (consumer 1 true true)
                              (running [inr [m_ok]; inl endpoint_error])).2).2
  = trace (iteration (consumer 1 true true)
                     (running [inr [m_ok]; inl endpoint_error])).2
      ++ [EvReceiveMessage (_sqs_client_params (consumer 1 true true))] /\
  forall fuel, (1 < fuel)%nat ->
    start (consumer 1 true true) fuel (fresh [inr [m_ok]; inl endpoint_error])
    = (Raises endpoint_error,
       (iteration (consumer 1 true true)
                  (iteration (consumer 1 true true)
                             (running [inr [m_ok]; inl endpoint_error])).2).2).
Proof.
  apply (receive_failure_propagates (consumer 1 true true)
           (fresh [inr [m_ok]; inl endpoint_error]) 1
           (iteration (consumer 1 true true)
                      (running [inr [m_ok]; inl endpoint_error])).2
           endpoint_error (seen []));
    reflexivity.
Defined.

(** C7, as the code has it, on the scripted queue: handler and callback
    both fail, and the sleep of the [finally] block returns. *)
Lemma callback_failure_propagates_witness :
  (iteration (consumer 1 true true) (running [inr [m_poison]])).1
    = Raises (with_context callback_error handler_error) /\
  forall fuel, (0 < fuel)%nat ->
    start (consumer 1 true true) fuel (fresh [inr [m_poison]])
    = (Raises (with_context callback_error handler_error),
       (iteration (consumer 1 true true) (running [inr [m_poison]])).2).
Proof.
  apply (callback_failure_propagates (consumer 1 true true) (fresh [inr [m_poison]]) 0
           (running [inr [m_poison]]) {| Messages := Some [m_poison] |} (seen [])
           [m_poison] [m_poison] handler_error (seen []) []
           (with_context callback_error handler_error) (seen []) (Returns tt) (seen []));
    try reflexivity.
  left. split; [reflexivity |].
  exists m_poison, []. split; [reflexivity |]. split; [|reflexivity].
  left. reflexivity.
Defined.

(** C7 as stated fails: when the [time.sleep] of the [finally] block
    raises, as on a wait of -1 ms, what leaves the dispatch and [start]
    is not the exception of the callback but the [ValueError] of the
    sleep; the callback's exception is its [__context__]. *)
Lemma callback_exception_replaced_by_sleep_exception :
  handle_processing_exception m_poison handler_error (seen [])
    = (Raises (with_context callback_error handler_error), seen []) /\
  (_process_message (waiting (-1) 1) m_poison (running [])).1
    = Raises (with_context (new_exc ValueError "sleep length must be non-negative")
                           (with_context callback_error handler_error)) /\
  (start (waiting (-1) 1) 5 (fresh [inr [m_poison]])).1
    = Raises (with_context (new_exc ValueError "sleep length must be non-negative")
                           (with_context callback_error handler_error)) /\
  (start (waiting (-1) 1) 5 (fresh [inr [m_poison]])).1
    <> Raises (with_context callback_error handler_error).
Proof. repeat split; try (vm_compute; reflexivity). vm_compute. discriminate. Qed.


(** C8.  A consumer built with [daemon=False] on which [start_consumer]
    was never called: [stop] sets [_running] to false and then raises
    [AttributeError], [_sqs_thread] being [None]; a second [stop] raises
    again. *)
Theorem stop_before_any_worker_raises :
  __init__ (args 1 false true) (fresh []) = (Returns (consumer 1 false true), constructed) /\
  _sqs_thread constructed = None /\
  threads constructed = [] /\
  trace constructed = [EvAtexitRegisterStop] /\
  stop (consumer 1 false true) constructed =
    (Raises (new_exc AttributeError "'NoneType' object has no attribute 'join'"),
     set_running false constructed) /\
  stop (consumer 1 false true) (stop (consumer 1 false true) constructed).2 =
    (Raises (new_exc AttributeError "'NoneType' object has no attribute 'join'"),
     set_running false constructed).
Proof.
  split; [reflexivity |]. split; [reflexivity |]. split; [reflexivity |].
  split; [reflexivity |].
  split; rewrite !stop_without_thread; reflexivity.
Qed.

(** C9, as the code has it, on a consumer that already has a worker and
    on one that is not threaded. *)
Lemma start_consumer_spawns_one_worker_witness :
  (exists s',
     start_consumer (consumer 1 true true) 0 (started_once []) = (Returns tt, s') /\
     threads s' = threads (started_once []) ++
                    [{| thread_name :=
                          thread_name_prefix (consumer 1 true true)
                            +:+ (uuid4 (world (started_once []))).1;
                        thread_daemon := daemon (consumer 1 true true);
                        thread_phase := Spawned |}] /\
     _sqs_thread s' = Some (length (threads (started_once []))) /\
     alive_workers s' = S (alive_workers (started_once []))) /\
  (start_consumer (consumer 1 true false) 2 (fresh [])
     = start (consumer 1 true false) 2 (fresh []) /\
   threads (start_consumer (consumer 1 true false) 2 (fresh [])).2 = threads (fresh []) /\
   _sqs_thread (start_consumer (consumer 1 true false) 2 (fresh [])).2
     = _sqs_thread (fresh [])).
Proof.
  split.
  - apply (proj1 (start_consumer_spawns_one_worker (consumer 1 true true)
                    (started_once []) 0)).
    reflexivity.
  - apply (proj2 (start_consumer_spawns_one_worker (consumer 1 true false)
                    (fresh []) 2)).
    reflexivity.
Defined.

(** C9 as stated fails: two calls of [start_consumer] in a row leave two
    live workers, and both poll the queue for the same consumer. *)
Lemma start_consumer_twice_two_workers :
  (start_consumer (consumer 1 true true) 0 (fresh [inr [m_ok]; inr [m_late]])).1
    = Returns tt /\
  alive_workers (started_once [inr [m_ok]; inr [m_late]]) = 1%nat /\
  (start_consumer (consumer 1 true true) 0 (started_once [inr [m_ok]; inr [m_late]])).1
    = Returns tt /\
  alive_workers (started_twice [inr [m_ok]; inr [m_late]]) = 2%nat /\
  ~ (alive_workers (started_twice [inr [m_ok]; inr [m_late]]) <= 1)%nat /\
  receive_message_calls
    (trace (worker_step (consumer 1 true true) 1
              (worker_step (consumer 1 true true) 0
                 (worker_step (consumer 1 true true) 1
                    (worker_step (consumer 1 true true) 0
                       (started_twice [inr [m_ok]; inr [m_late]]))))))
    = [_sqs_client_params (consumer 1 true true);
       _sqs_client_params (consumer 1 true true)] /\
  handle_message_calls
    (trace (worker_step (consumer 1 true true) 1
              (worker_step (consumer 1 true true) 0
                 (worker_step (consumer 1 true true) 1
                    (worker_step (consumer 1 true true) 0
                       (started_twice [inr [m_ok]; inr [m_late]]))))))
    = [m_ok; m_late] /\
  alive_workers
    (worker_step (consumer 1 true true) 1
       (worker_step (consumer 1 true true) 0
          (worker_step (consumer 1 true true) 1
             (worker_step (consumer 1 true true) 0
                (started_twice [inr [m_ok]; inr [m_late]])))))
    = 2%nat.
Proof.
  repeat split; try reflexivity.
  vm_compute. lia.
Qed.

(** A worker that is not a daemon, stopped the way the class means it:
    [stop] clears the flag and waits in [join]; the worker's next loop
    test ends it; from then on [stop] returns, as often as it is called. *)
Example stop_returns_once_worker_exits :
  let self := consumer 1 false true in
  let looping := worker_step self 0 (start_consumer self 0 (fresh [])).2 in
  let stopping := (stop self looping).2 in
  let ended := worker_step self 0 stopping in
  _running looping = true /\
  (stop self looping).1 = Hangs (Joining 0) /\
  _running stopping = false /\
  thread_phase <$> threads ended = [Exited] /\
  (stop self ended).1 = Returns tt /\
  (stop self (stop self ended).2).1 = Returns tt.
Proof. repeat split; reflexivity. Qed.

(** One turn on one good message: receive, handle, delete, wait. *)
Example one_good_turn :
  iteration (consumer 1 true true) (running [inr [m_ok]]) =
    (Returns tt,
     {| world := {| inbox := []; uuid_seed := 0 |};
        _running := true;
        _sqs_thread := None;
        threads := [];
        os_environ := ∅;
        messages_obj := [];
        trace := [EvReceiveMessage (_sqs_client_params (consumer 1 true true));
                  EvHandleMessage m_ok;
                  EvDeleteMessage (queue_url (consumer 1 true true)) "rh-1";
                  EvSleep (0 # 1000)] |}).
Proof. reflexivity. Qed.

(** A wait set below zero: [time.sleep] raises in the [finally] block, and
    the turn ends with its [ValueError]. *)
Example negative_wait_ends_the_turn :
  (_process_message
     {| queue_url := "q"; attribute_names := []; message_attribute_names := [];
        batch_size := 1; wait_time_seconds := 1; visibility_timeout_seconds := None;
        polling_wait_time_ms := -1; daemon := true;
        thread_name_prefix := "aws_sqs_threadconsumer"; threaded := true;
        _sqs_client := tt |}
     m_ok (running [])).1
  = Raises (new_exc ValueError "sleep length must be non-negative").
Proof. reflexivity. Qed.

(** ** The further properties on the scripted queue *)

(** X3 on an empty queue. *)
Lemma empty_response_only_waits_witness :
  iteration (consumer 1 true true) (running []) =
    (Returns tt,
     with_view
       (log (EvSleep (polling_wait_time_ms (consumer 1 true true) # 1000))
            (with_view (log (EvReceiveMessage (_sqs_client_params (consumer 1 true true)))
                            (running []))
                       (seen [])))
       (seen [])).
Proof.
  apply (empty_response_only_waits (consumer 1 true true) (running [])
           {| Messages := None |} (seen []) (seen []));
    first [reflexivity | by left].
Defined.

(** X4 on two turns, the second with a failing handler. *)
Lemma completed_turns_receive_and_sleep_witness :
  exists evs,
    trace (iteration (consumer 1 true true)
             (iteration (consumer 1 true true) (running [inr [m_ok]; inr [m_boom]])).2).2
      = trace (running [inr [m_ok]; inr [m_boom]]) ++ evs /\
    receive_message_calls evs = replicate 2 (_sqs_client_params (consumer 1 true true)) /\
    sleep_calls evs = replicate 2 (polling_wait_time_ms (consumer 1 true true) # 1000).
Proof.
  apply (completed_turns_receive_and_sleep (consumer 1 true true) 2
           (running [inr [m_ok]; inr [m_boom]])).
  vm_compute. reflexivity.
Defined.

(** X5 on a consumer waiting -5 ms. *)
Lemma failing_wait_never_completes_witness :
  (iteration (waiting (-5) 1) (running [inr [m_ok]])).1 <> Returns tt /\
  (forall fuel, (start (waiting (-5) 1) fuel (running [inr [m_ok]])).1 <> Returns tt) /\
  (forall response v,
     receive_message (_sqs_client (waiting (-5) 1)) (_sqs_client_params (waiting (-5) 1))
                     (view (running [inr [m_ok]]))
       = (Returns response, v) ->
     (forall raws e, Messages response = Some raws -> parse_messages raws <> inl e) ->
     match (iteration (waiting (-5) 1) (running [inr [m_ok]])).1 with
     | Returns _ => False
     | Raises e =>
         exists raised v0 v',
           time_sleep (polling_wait_time_ms (waiting (-5) 1) # 1000) v0
             = (Raises raised, v') /\
           exc_class e = exc_class raised
     | Hangs _ => True
     end).
Proof.
  apply (failing_wait_never_completes (waiting (-5) 1) (running [inr [m_ok]])).
  intros v. eexists _, _. reflexivity.
Defined.

(** X7 on a response whose second record has no message id. *)
Lemma parse_failure_ends_turn_witness :
  iteration (H1 := strict_imports) (consumer 3 true true)
            (running [inr [m_ok; m_no_id; m_late]]) =
    (Raises key_error,
     with_view (log (EvReceiveMessage (_sqs_client_params (consumer 3 true true)))
                    (running [inr [m_ok; m_no_id; m_late]]))
               (seen [])).
Proof.
  apply (parse_failure_ends_turn (H1 := strict_imports) (consumer 3 true true)
           (running [inr [m_ok; m_no_id; m_late]])
           {| Messages := Some [m_ok; m_no_id; m_late] |} (seen [])
           [m_ok] [m_ok] m_no_id [m_late] key_error);
    reflexivity.
Defined.

(** X8 on handlers interrupted from the keyboard. *)
Lemma handler_interrupt_not_routed_witness :
  (exists evs,
     trace (_process_message (H0 := interrupted_handlers) (consumer 1 true true)
                             m_ctrl_c (running [])).2
       = trace (running []) ++ evs /\
     handle_processing_exception_calls evs = [] /\
     delete_message_calls evs = [] /\
     sleep_calls evs = [polling_wait_time_ms (consumer 1 true true) # 1000] /\
     (forall v2,
        time_sleep (polling_wait_time_ms (consumer 1 true true) # 1000) (seen [])
          = (Returns tt, v2) ->
        (_process_message (H0 := interrupted_handlers) (consumer 1 true true)
                          m_ctrl_c (running [])).1 = Raises interrupt)) /\
  (exists evs,
     trace (_process_message_batch (H0 := interrupted_handlers) (consumer 5 true true)
                                   [m_ok; m_ctrl_c] (running [])).2
       = trace (running []) ++ evs /\
     handle_batch_processing_exception_calls evs = [] /\
     delete_message_batch_calls evs = [] /\
     sleep_calls evs = [polling_wait_time_ms (consumer 5 true true) # 1000] /\
     (forall v2,
        time_sleep (polling_wait_time_ms (consumer 5 true true) # 1000) (seen [])
          = (Returns tt, v2) ->
        (_process_message_batch (H0 := interrupted_handlers) (consumer 5 true true)
                                [m_ok; m_ctrl_c] (running [])).1 = Raises interrupt)).
Proof.
  split.
  - apply (proj1 (handler_interrupt_not_routed (H0 := interrupted_handlers)
                    (consumer 1 true true) (running []) interrupt eq_refl)
             m_ctrl_c (seen [])).
    reflexivity.
  - apply (proj2 (handler_interrupt_not_routed (H0 := interrupted_handlers)
                    (consumer 5 true true) (running []) interrupt eq_refl)
             [m_ok; m_ctrl_c] (seen []) [m_ok; m_ctrl_c]).
    reflexivity.
Defined.

(** X9 on a client interrupted during the delete. *)
Lemma delete_interrupt_not_wrapped_witness :
  (exists evs,
     trace (_process_message (H := interrupted_client) (consumer 1 true true)
                             m_ctrl_c_delete (running [])).2
       = trace (running []) ++ evs /\
     delete_message_calls evs
       = [(queue_url (consumer 1 true true), ReceiptHandle m_ctrl_c_delete)] /\
     handle_processing_exception_calls evs = [] /\
     (forall v3,
        time_sleep (polling_wait_time_ms (consumer 1 true true) # 1000) (seen [])
          = (Returns tt, v3) ->
        (_process_message (H := interrupted_client) (consumer 1 true true)
                          m_ctrl_c_delete (running [])).1 = Raises interrupt)) /\
  (exists evs,
     trace (_process_message_batch (H := interrupted_client) (consumer 5 true true)
                                   [m_ok; m_ctrl_c_delete] (running [])).2
       = trace (running []) ++ evs /\
     delete_message_batch_calls evs
       = [(queue_url (consumer 5 true true), delete_entries [m_ok; m_ctrl_c_delete])] /\
     handle_batch_processing_exception_calls evs = [] /\
     (forall v3,
        time_sleep (polling_wait_time_ms (consumer 5 true true) # 1000) (seen [])
          = (Returns tt, v3) ->
        (_process_message_batch (H := interrupted_client) (consumer 5 true true)
                                [m_ok; m_ctrl_c_delete] (running [])).1
          = Raises interrupt)).
Proof.
  split.
  - apply (proj1 (delete_interrupt_not_wrapped (H := interrupted_client)
                    (consumer 1 true true) (running []) interrupt eq_refl)
             m_ctrl_c_delete (seen []) (seen []));
      reflexivity.
  - apply (proj2 (delete_interrupt_not_wrapped (H := interrupted_client)
                    (consumer 5 true true) (running []) interrupt eq_refl)
             [m_ok; m_ctrl_c_delete] (seen []) [m_ok; m_ctrl_c_delete] (seen []));
      reflexivity.
Defined.

(** X11 on a failing handler and on an expired receipt handle. *)
Lemma callback_return_absorbs_failure_witness :
  ((_process_message (consumer 1 true true) m_boom (running [])).1 = Returns tt /\
   view (_process_message (consumer 1 true true) m_boom (running [])).2 = seen []) /\
  ((_process_message_batch (consumer 5 true true) [m_ok; m_expired] (running [])).1
     = Returns tt /\
   view (_process_message_batch (consumer 5 true true) [m_ok; m_expired] (running [])).2
     = seen []).
Proof.
  split.
  - apply (proj1 (callback_return_absorbs_failure (consumer 1 true true) (running [])
                    handler_error eq_refl)
             m_boom (seen []) (seen []) (seen []));
      [left | |]; reflexivity.
  - apply (proj2 (callback_return_absorbs_failure (consumer 5 true true) (running [])
                    (with_context (new_exc SQSException "Failed to delete message batch")
                                  client_error)
                    eq_refl)
             [m_ok; m_expired] (seen []) [m_ok; m_expired] (seen []) (seen []));
      [right; exists (seen []), client_error; repeat split | |]; reflexivity.
Defined.

(** X13 on a worker that is inside the loop. *)
Lemma stop_returns_after_worker_sees_flag_witness :
  (stop (consumer 1 false true) worker_looping).1 = Hangs (Joining 0) /\
  thread_phase <$>
    threads (worker_step (consumer 1 false true) 0
               (stop (consumer 1 false true) worker_looping).2) !! 0%nat
    = Some Exited /\
  trace (worker_step (consumer 1 false true) 0
           (stop (consumer 1 false true) worker_looping).2)
    = trace (stop (consumer 1 false true) worker_looping).2 /\
  (stop (consumer 1 false true)
        (worker_step (consumer 1 false true) 0
           (stop (consumer 1 false true) worker_looping).2)).1 = Returns tt.
Proof.
  eapply (stop_returns_after_worker_sees_flag (consumer 1 false true) worker_looping 0);
    reflexivity.
Defined.

(** X14 on a worker that was started and has not run yet. *)
Lemma stop_before_worker_enters_is_undone_witness :
  _running (stop (consumer 1 true true) (started_once [])).2 = false /\
  _running (worker_step (consumer 1 true true) 0
              (stop (consumer 1 true true) (started_once [])).2) = true /\
  thread_phase <$>
    threads (worker_step (consumer 1 true true) 0
               (stop (consumer 1 true true) (started_once [])).2) !! 0%nat
    = Some Looping.
Proof.
  eapply (stop_before_worker_enters_is_undone (consumer 1 true true) (started_once []) 0);
    reflexivity.
Defined.

(** X15 on a handler that stops the consumer at its second message. *)
Lemma start_returns_only_when_stopped_witness :
  _running (start (H0 := stopping_handlers) (consumer 1 true true) 5
                  (fresh [inr [m_ok]; inr [m_stop]; inr [m_late]])).2 = false.
Proof.
  apply (start_returns_only_when_stopped (H0 := stopping_handlers)
           (consumer 1 true true) 5 (fresh [inr [m_ok]; inr [m_stop]; inr [m_late]])).
  vm_compute. reflexivity.
Defined.

(** X16 on a threaded consumer. *)
Lemma start_consumer_threaded_returns_at_once_witness :
  (start_consumer (consumer 1 true true) 7 (fresh [inr [m_ok]])).1 = Returns tt /\
  trace (start_consumer (consumer 1 true true) 7 (fresh [inr [m_ok]])).2
    = trace (fresh [inr [m_ok]]) ++ [EvThreadStart (length (threads (fresh [inr [m_ok]])))] /\
  _running (start_consumer (consumer 1 true true) 7 (fresh [inr [m_ok]])).2
    = _running (fresh [inr [m_ok]]).
Proof.
  apply (start_consumer_threaded_returns_at_once (consumer 1 true true)
           (fresh [inr [m_ok]]) 7).
  reflexivity.
Defined.

(** X17 with a client passed in and no region anywhere. *)
Lemma init_without_region_fails_witness :
  __init__ (args_with None (Some tt)) (fresh [])
    = (Raises region_error, set_sqs_thread None (fresh [])) /\
  exc_class region_error = Exception.
Proof.
  apply (init_without_region_fails (args_with None (Some tt)) (fresh []));
    first [cbn; lia | by left | reflexivity].
Defined.

(** X18 with a region argument that differs from the environment's. *)
Lemma init_builds_client_for_region_witness :
  (exists evs,
     trace (__init__ (args_with (Some "us-east-1") None) (fresh_in "eu-west-1")).2
       = trace (fresh_in "eu-west-1") ++ EvBoto3Client "us-east-1" :: evs /\
     boto3_client_calls evs = []) /\
  (forall client v,
     boto3_client "us-east-1" (view (fresh_in "eu-west-1")) = (Returns client, v) ->
     exists self s',
       __init__ (args_with (Some "us-east-1") None) (fresh_in "eu-west-1")
         = (Returns self, s') /\
       _sqs_client self = client) /\
  (forall e v,
     boto3_client "us-east-1" (view (fresh_in "eu-west-1")) = (Raises e, v) ->
     (__init__ (args_with (Some "us-east-1") None) (fresh_in "eu-west-1")).1 = Raises e).
Proof.
  apply (init_builds_client_for_region (args_with (Some "us-east-1") None)
           (fresh_in "eu-west-1") "us-east-1").
  - cbn. lia.
  - reflexivity.
  - left. split; [reflexivity | discriminate].
Defined.

(** X19 with a client passed in. *)
Lemma init_keeps_supplied_client_witness :
  (exists evs,
     trace (__init__ (args_with (Some "eu-west-1") (Some tt)) (fresh [])).2
       = trace (fresh []) ++ evs /\
     boto3_client_calls evs = []) /\
  (forall self s',
     __init__ (args_with (Some "eu-west-1") (Some tt)) (fresh []) = (Returns self, s') ->
     _sqs_client self = tt).
Proof.
  apply (init_keeps_supplied_client (args_with (Some "eu-west-1") (Some tt)) (fresh []) tt);
    reflexivity.
Defined.

(** X23 with a client passed in that counts as false. *)
Lemma init_replaces_false_client_witness :
  (exists evs,
     trace (__init__ (H := weighed_client) (H1 := weighed_imports)
                     (args_passing false) (fresh [])).2
       = trace (fresh []) ++ EvBoto3Client "eu-west-1" :: evs /\
     boto3_client_calls evs = []) /\
  (forall client v,
     boto3_client (Imports := weighed_imports) "eu-west-1" (view (fresh []))
       = (Returns client, v) ->
     exists self s',
       __init__ (H := weighed_client) (H1 := weighed_imports)
                (args_passing false) (fresh []) = (Returns self, s') /\
       _sqs_client self = client) /\
  (forall e v,
     boto3_client (Imports := weighed_imports) "eu-west-1" (view (fresh []))
       = (Raises e, v) ->
     (__init__ (H := weighed_client) (H1 := weighed_imports)
               (args_passing false) (fresh [])).1 = Raises e).
Proof.
  apply (init_replaces_false_client (H := weighed_client) (H1 := weighed_imports)
           (args_passing false) (fresh []) false "eu-west-1");
    first [reflexivity | cbn; lia | by left].
Defined.

(** X20 with the region taken from the environment. *)
Lemma init_returns_configured_consumer_witness :
  queue_url configured = arg_queue_url (args_with None (Some tt)) /\
  attribute_names configured = arg_attribute_names (args_with None (Some tt)) /\
  message_attribute_names configured
    = arg_message_attribute_names (args_with None (Some tt)) /\
  batch_size configured = arg_batch_size (args_with None (Some tt)) /\
  1 <= batch_size configured <= 10 /\
  wait_time_seconds configured = arg_wait_time_seconds (args_with None (Some tt)) /\
  visibility_timeout_seconds configured
    = arg_visibility_timeout_seconds (args_with None (Some tt)) /\
  polling_wait_time_ms configured = arg_polling_wait_time_ms (args_with None (Some tt)) /\
  daemon configured = arg_daemon (args_with None (Some tt)) /\
  threaded configured = arg_threaded (args_with None (Some tt)) /\
  thread_name_prefix configured
    = "aws_sqs_thread" +:+ arg_thread_name (args_with None (Some tt)) /\
  _running (__init__ (args_with None (Some tt)) (fresh_in "eu-west-1")).2 = false /\
  _sqs_thread (__init__ (args_with None (Some tt)) (fresh_in "eu-west-1")).2 = None /\
  threads (__init__ (args_with None (Some tt)) (fresh_in "eu-west-1")).2
    = threads (fresh_in "eu-west-1") /\
  exists evs,
    trace (__init__ (args_with None (Some tt)) (fresh_in "eu-west-1")).2
      = trace (fresh_in "eu-west-1") ++ evs ++ [EvAtexitRegisterStop] /\
    (evs = [] \/ exists region, evs = [EvBoto3Client region]).
Proof.
  apply (init_returns_configured_consumer (args_with None (Some tt))
           (fresh_in "eu-west-1") configured
           (__init__ (args_with None (Some tt)) (fresh_in "eu-west-1")).2).
  reflexivity.
Defined.

(** X21 on the class's own methods and an expired receipt handle. *)
Lemma default_handlers_isolate_failures_witness :
  (_process_message (H0 := default_handlers) (consumer 1 true true) m_expired
                    (running [])).1 = Returns tt.
Proof.
  apply (default_handlers_isolate_failures (consumer 1 true true) m_expired (running [])
           (Raises client_error) (seen []));
    first [reflexivity | intros v0; reflexivity].
Defined.

(** X22 on a worker whose receive cannot reach the endpoint. *)
Lemma escaping_exception_ends_worker_witness :
  thread_phase <$> threads (worker_step (consumer 1 true true) 0 worker_offline) !! 0%nat
    = Some Exited /\
  _running (worker_step (consumer 1 true true) 0 worker_offline)
    = _running (iteration (consumer 1 true true) worker_offline).2 /\
  trace (worker_step (consumer 1 true true) 0 worker_offline)
    = trace (iteration (consumer 1 true true) worker_offline).2 /\
  worker_step (consumer 1 true true) 0 (worker_step (consumer 1 true true) 0 worker_offline)
    = worker_step (consumer 1 true true) 0 worker_offline.
Proof.
  eapply (escaping_exception_ends_worker (consumer 1 true true) worker_offline 0 _
            endpoint_error (iteration (consumer 1 true true) worker_offline).2);
    vm_compute; reflexivity.
Defined.

End Runs.
